(** * ai_designer_v2: the flyer generator's server and browser script

    A shallow embedding of [src/server.js] (the Express handlers and their
    helpers) and of [src/public/script.js] (the click handler that resolves
    the image placeholders of a generated layout), followed by the
    properties of the resolution pipeline.

    Conventions.
    - JavaScript numbers that carry pixel sizes are integers, modelled in [Z].
    - Strings are sequences of 8-bit code units ([string]); buffers are
      [list byte].
    - [async] functions are run to completion one after the other: every
      [await] blocks its caller, so a handler is a state-passing function
      that may end in a thrown error ([Throw]).
    - The hosted services (Gemini, Together AI), the segmentation library,
      Node's base64 codec and the browser's HTML parser are not part of the
      repository; they enter as [Variable]s of the sections below. *)

From Stdlib Require Import ZArith List String Ascii Lia Bool.
From Stdlib.Strings Require Import Byte.
From stdpp Require Import base list strings pretty.

Open Scope Z_scope.

(** ** JavaScript runtime: errors, promises run to completion *)

Inductive JsError :=
| Error (message : string)
| TypeError
| FetchError
| JsonError.

Inductive Outcome (A : Type) :=
| Val (a : A)
| Throw (e : JsError).
Arguments Val {A} a.
Arguments Throw {A} e.

(** A computation over a mutable world [S] that returns or throws. *)
Definition M (S A : Type) : Type := S -> Outcome A * S.

Definition ret {S A} (a : A) : M S A := fun s => (Val a, s).

Definition bind {S A B} (m : M S A) (k : A -> M S B) : M S B :=
  fun s => match m s with
           | (Val a, s') => k a s'
           | (Throw e, s') => (Throw e, s')
           end.

Definition throw {S A} (e : JsError) : M S A := fun s => (Throw e, s).

(** [try { m } catch (e) { h e }] *)
Definition try_catch {S A} (m : M S A) (h : JsError -> M S A) : M S A :=
  fun s => match m s with
           | (Val a, s') => (Val a, s')
           | (Throw e, s') => h e s'
           end.

(** [try { m } finally { f }] *)
Definition try_finally {S A} (m : M S A) (f : M S unit) : M S A :=
  fun s => match m s with
           | (r, s') => match f s' with
                        | (Val _, s'') => (r, s'')
                        | (Throw e, s'') => (Throw e, s'')
                        end
           end.

Definition get {S} : M S S := fun s => (Val s, s).
Definition modify {S} (f : S -> S) : M S unit := fun s => (Val tt, f s).

Declare Scope js_scope.
Delimit Scope js_scope with js.
Notation "'let*' x ':=' m 'in' k" := (bind m (fun x => k))
  (at level 10, x name, m at level 100, k at level 200) : js_scope.
Notation "'exec' m 'in' k" := (bind m (fun _ => k))
  (at level 10, m at level 100, k at level 200) : js_scope.
Open Scope js_scope.

(** ** JavaScript runtime: strings *)

(** [s.startsWith(p)] *)
Definition startsWith (s p : string) : bool := String.prefix p s.

(** [a || b] on strings: the empty string is falsy. *)
Definition or_string (a b : string) : string :=
  if String.eqb a "" then b else a.

(** [a || b] on numbers: zero is falsy. *)
Definition or_number (a b : Z) : Z :=
  if a =? 0 then b else a.

(** String conversion of a possibly missing property (template literal,
    attribute or [innerHTML] assignment). *)
Definition to_string (o : option string) : string :=
  match o with
  | Some s => s
  | None => "undefined"
  end.

(** Truthiness of a possibly missing string. *)
Definition truthy (o : option string) : bool :=
  match o with
  | Some s => negb (String.eqb s "")
  | None => false
  end.

(** [s.replace(/pat/g, '')] for a literal, non-empty pattern. *)
Fixpoint remove_all_fuel (fuel : nat) (pat s : string) : string :=
  match fuel with
  | O => s
  | S fuel' =>
      match s with
      | EmptyString => EmptyString
      | String c rest =>
          if String.prefix pat s
          then remove_all_fuel fuel'
                 pat (String.substring (String.length pat)
                        (String.length s - String.length pat) s)
          else String c (remove_all_fuel fuel' pat rest)
      end
  end.

Definition remove_all (pat s : string) : string :=
  remove_all_fuel (String.length s) pat s.

(** White space and line terminators in the 8-bit range, as removed by
    [String.prototype.trim]. *)
Definition is_white_space (c : ascii) : bool :=
  let n := nat_of_ascii c in
  (Nat.eqb n 9 || Nat.eqb n 10 || Nat.eqb n 11 || Nat.eqb n 12
   || Nat.eqb n 13 || Nat.eqb n 32 || Nat.eqb n 160)%bool.

Fixpoint trimStart (s : string) : string :=
  match s with
  | EmptyString => EmptyString
  | String c rest => if is_white_space c then trimStart rest else s
  end.

Fixpoint trimEnd (s : string) : string :=
  match s with
  | EmptyString => EmptyString
  | String c rest =>
      match trimEnd rest with
      | EmptyString => if is_white_space c then EmptyString
                       else String c EmptyString
      | r => String c r
      end
  end.

Definition trim (s : string) : string := trimEnd (trimStart s).

(** A string of white space only (the empty string included). *)
Fixpoint all_white_space (s : string) : bool :=
  match s with
  | EmptyString => true
  | String c rest => is_white_space c && all_white_space rest
  end.

(** [s.slice(n)] *)
Definition string_drop (n : nat) (s : string) : string :=
  String.substring n (String.length s - n) s.

(** The part of [s] before its first comma, and what follows that comma. *)
Fixpoint cut_at_comma (s : string) : string * option string :=
  match s with
  | EmptyString => (EmptyString, None)
  | String c rest =>
      if Ascii.eqb c ","%char then (EmptyString, Some rest)
      else let (a, b) := cut_at_comma rest in (String c a, b)
  end.

(** [s.split(',')[1]] *)
Definition split_comma_1 (s : string) : option string :=
  match snd (cut_at_comma s) with
  | None => None
  | Some rest => Some (fst (cut_at_comma rest))
  end.

(** The character class [[a-zA-Z0-9.+-]]. *)
Definition is_mime_char (c : ascii) : bool :=
  let n := nat_of_ascii c in
  ((Nat.leb 97 n && Nat.leb n 122) || (Nat.leb 65 n && Nat.leb n 90)
   || (Nat.leb 48 n && Nat.leb n 57)
   || Nat.eqb n 46 || Nat.eqb n 43 || Nat.eqb n 45)%bool.

(** The longest prefix made of [is_mime_char], and the rest. *)
Fixpoint span_mime (s : string) : string * string :=
  match s with
  | EmptyString => (EmptyString, EmptyString)
  | String c rest =>
      if is_mime_char c
      then let (a, b) := span_mime rest in (String c a, b)
      else (EmptyString, s)
  end.

(** [.] of a regular expression matches no line terminator. *)
Fixpoint no_line_terminator (s : string) : bool :=
  match s with
  | EmptyString => true
  | String c rest =>
      let n := nat_of_ascii c in
      (negb (Nat.eqb n 10) && negb (Nat.eqb n 13) && no_line_terminator rest)%bool
  end.

(** The two groups of the handler's regular expression on a data URL:
    [data:], then group 1 = [image/] and one or more characters of
    [is_mime_char], then [;base64,], then group 2 = the rest of the string,
    which holds no line terminator. *)
Definition match_data_url (s : string) : option (string * string) :=
  if startsWith s "data:image/"
  then
    let (sub, rest) := span_mime (string_drop 11 s) in
    if String.eqb sub "" then None
    else if startsWith rest ";base64,"
    then
      let payload := string_drop 8 rest in
      if no_line_terminator payload
      then Some ("image/" +:+ sub, payload)
      else None
    else None
  else None.

(** A line feed, [\n] in a JavaScript literal. *)
Definition LF : string := String (ascii_of_nat 10) EmptyString.

(** ** HTTP as seen through [fetch] *)

Record Response (J : Type) := {
  status : Z;
  text : string;            (* [await response.text()] *)
  json : option J           (* [await response.json()]; [None]: it rejects *)
}.
Arguments status {J} r.
Arguments text {J} r.
Arguments json {J} r.

(** [response.ok] *)
Definition ok {J} (r : Response J) : bool :=
  (200 <=? status r) && (status r <=? 299).

Inductive FetchResult (J : Type) :=
| Rejected                      (* the promise returned by [fetch] rejects *)
| Fulfilled (r : Response J).
Arguments Rejected {J}.
Arguments Fulfilled {J} r.

(** [await fetch(...)] *)
Definition await_fetch {S J} (r : FetchResult J) : M S (Response J) :=
  match r with
  | Rejected => throw FetchError
  | Fulfilled resp => ret resp
  end.

(** [await response.json()] *)
Definition await_json {S J} (r : Response J) : M S J :=
  match json r with
  | Some j => ret j
  | None => throw JsonError
  end.

(** Bodies exchanged between the page and the server. *)
Record LayoutRequest := { requirements : string }.
Record LayoutJson := { html : option string }.

Record ImageRequest := {
  prompt : string;
  width : Z;
  height : Z;
  isTransparent : bool
}.
Record ImageJson := { url : option string }.

(** * The server, [src/server.js] *)

Module Server.

(** [new Blob([bytes], { type })]: the bytes and the [type] option that the
    code passes to the constructor. *)
Record Blob := { blob_bytes : list byte; blob_type : string }.

(** Body of the request sent to Together AI. *)
Record TogetherRequest := {
  req_model : string;
  req_prompt : string;
  req_width : Z;
  req_height : Z;
  req_n : Z;
  req_output_format : string;
  req_response_format : string
}.

(** Reply of Together AI: [data.data[k].b64_json]. *)
Record TogetherItem := { b64_json : option string }.
Record TogetherData := { data : option (list TogetherItem) }.

(** Reply of Gemini: [data.candidates[k].content.parts[k].text]. *)
Record GeminiPart := { part_text : option string }.
Record GeminiContent := { parts : option (list GeminiPart) }.
Record GeminiCandidate := { content : option GeminiContent }.
Record GeminiData := { candidates : option (list GeminiCandidate) }.

(** Reply of a remote image host. *)
Record RemoteImage := { remote_bytes : list byte; content_type : option string }.

(** What the server process does to the outside world. *)
Inductive ExtCall :=
| CallGemini (apiKey fullPrompt : string)
| CallTogether (apiKey : string) (req : TogetherRequest)
| CallRemoveBackground (blob : Blob)
| CallRemote (imageUrl : string).

Definition Log : Type := list ExtCall.

Definition call {A} (c : ExtCall) (answer : A) : M Log A :=
  fun log => (Val answer, log ++ [c]).

(** [function detectImageMimeFromBuffer(buffer)] *)
Definition detectImageMimeFromBuffer (buffer : list byte) : string :=
  let at_is (i : nat) (b : byte) : bool :=
    match buffer !! i with
    | Some x => Byte.eqb x b
    | None => false
    end in
  if Nat.eqb (length buffer) 0 then "image/png"
  else if at_is 0%nat x89 && at_is 1%nat x50 && at_is 2%nat x4e
          && at_is 3%nat x47 then "image/png"
  else if at_is 0%nat xff && at_is 1%nat xd8 && at_is 2%nat xff
       then "image/jpeg"
  else if at_is 0%nat x52 && at_is 1%nat x49 && at_is 2%nat x46
          && at_is 3%nat x46 && at_is 8%nat x57 && at_is 9%nat x45
          && at_is 10%nat x42 then "image/webp"
  else "application/octet-stream".

(** [Math.round(p / q)] for integers [p] and [q > 0]: the nearest integer,
    a tie going up. *)
Definition Math_round_div (p q : Z) : Z := (2 * p + q) / (2 * q).

(** [const roundToMultiple16 = (num) => Math.round((num || 1024) / 16) * 16] *)
Definition roundToMultiple16 (num : Z) : Z :=
  Math_round_div (or_number num 1024) 16 * 16.

(** [width = width < 64 ? 64 : width] *)
Definition clamp64 (n : Z) : Z := if n <? 64 then 64 else n.

(** The size sent to the generator for a requested size. *)
Definition valid_dimension (n : Z) : Z := roundToMultiple16 (clamp64 n).

Section Handlers.

(** [process.env] *)
Variable GEMINI_API_KEY : option string.
Variable TOGETHER_API_KEY : option string.

(** Node: [Buffer.from(s, 'base64')] and [buf.toString('base64')]. *)
Variable b64decode : string -> list byte.
Variable b64encode : list byte -> string.

(** The hosted services and the segmentation library. [removeBackground]
    gives [None] when its promise rejects; the error it rejects with is
    not modelled, and the [text] of a 500 reply stands for its message. *)
Variable geminiApi : string -> FetchResult GeminiData.
Variable togetherApi : TogetherRequest -> FetchResult TogetherData.
Variable removeBackground : Blob -> option (list byte).
Variable remoteHost : string -> FetchResult RemoteImage.

(** [async function callGemini(prompt)] *)
Definition callGemini (prompt : string) : M Log string :=
  if negb (truthy GEMINI_API_KEY)
  then throw (Error "GEMINI_API_KEY is not set.")
  else
    let apiKey := to_string GEMINI_API_KEY in
    let* r := call (CallGemini apiKey prompt) (geminiApi prompt) in
    let* response := await_fetch r in
    if negb (ok response)
    then throw (Error ("Gemini API Error: " +:+ pretty (status response)
                       +:+ " - " +:+ text response))
    else
      let* data := await_json response in
      match candidates data with
      | None => throw (Error "Invalid response structure from Gemini API")
      | Some cs =>
          match cs !! 0%nat with
          | None => throw TypeError
          | Some c0 =>
              match content c0 with
              | None =>
                  throw (Error "Invalid response structure from Gemini API")
              | Some ct =>
                  match parts ct with
                  | None => throw TypeError
                  | Some ps =>
                      match ps !! 0%nat with
                      | None => throw TypeError
                      | Some p0 =>
                          match part_text p0 with
                          | None => throw TypeError
                          | Some text =>
                              let text := remove_all "```html" text in
                              let text := remove_all "```" text in
                              ret text
                          end
                      end
                  end
              end
          end
      end.

(** [async function removeBackgroundFun(imageBase64)] *)
Definition removeBackgroundFun (imageBase64 : string) : M Log string :=
  try_catch
    (let inputBuffer := b64decode imageBase64 in
     let mimeType :=
       or_string (detectImageMimeFromBuffer inputBuffer) "image/png" in
     let blob := {| blob_bytes := inputBuffer; blob_type := mimeType |} in
     let* result := call (CallRemoveBackground blob) (removeBackground blob) in
     match result with
     | None => throw (Error "removeBackground rejected")
     | Some outputBuffer =>
         let outputBase64 := b64encode outputBuffer in
         let outputDataUrl := "data:image/png;base64," +:+ outputBase64 in
         ret outputDataUrl
     end)
    (fun error => ret ("data:image/png;base64," +:+ imageBase64)).

(** The blob that [removeBackgroundFun] builds from a base64 text. *)
Definition blob_of (imageBase64 : string) : Blob :=
  {| blob_bytes := b64decode imageBase64;
     blob_type :=
       or_string (detectImageMimeFromBuffer (b64decode imageBase64))
         "image/png" |}.

(** The body that [generateImage] posts to Together AI. *)
Definition together_request (prompt : string) (validWidth validHeight : Z)
  : TogetherRequest :=
  {| req_model := "black-forest-labs/FLUX.1-schnell-Free";
     req_prompt := prompt;
     req_width := validWidth;
     req_height := validHeight;
     req_n := 1;
     req_output_format := "png";
     req_response_format := "base64" |}.

(** [async function generateImage(prompt, width, height, isTransparent)] *)
Definition generateImage (prompt : string) (width height : Z)
    (isTransparent : bool) : M Log string :=
  let width := if width <? 64 then 64 else width in
  let height := if height <? 64 then 64 else height in
  if negb (truthy TOGETHER_API_KEY)
  then throw (Error "TOGETHER_API_KEY is not set.")
  else
    let apiKey := to_string TOGETHER_API_KEY in
    let validWidth := roundToMultiple16 width in
    let validHeight := roundToMultiple16 height in
    let body := together_request prompt validWidth validHeight in
    let* r := call (CallTogether apiKey body) (togetherApi body) in
    let* response := await_fetch r in
    if negb (ok response)
    then throw (Error ("Together AI Error: " +:+ pretty (status response)
                       +:+ " - " +:+ text response))
    else
      let* data := await_json response in
      match Server.data data with
      | None => throw (Error "Invalid response from Together AI")
      | Some items =>
          match items !! 0%nat with
          | None => throw TypeError
          | Some item =>
              if truthy (b64_json item)
              then
                let b64 := to_string (b64_json item) in
                if isTransparent
                then removeBackgroundFun b64
                else ret ("data:image/jpeg;base64," +:+ b64)
              else throw (Error "Invalid response from Together AI")
          end
      end.

(** [error.message] *)
Definition message_of (e : JsError) : string :=
  match e with
  | Error m => m
  | TypeError => "TypeError"
  | FetchError => "fetch failed"
  | JsonError => "invalid json"
  end.

(** The handler of [app.post('/api/generate-image', ...)], run on a body
    that the [express.json()] of line 12 has parsed. *)
Definition generate_image (body : ImageRequest) : M Log (Response ImageJson) :=
  try_catch
    (let* imageUrl := generateImage (prompt body) (width body)
                        (height body) (isTransparent body) in
     ret {| status := 200; text := imageUrl;
            json := Some {| url := Some imageUrl |} |})
    (fun error =>
       ret {| status := 500; text := message_of error;
              json := Some {| url := None |} |}).

(** The two literals of the layout handler: the template literal bound to
    [systemPrompt] and the string assigned to [requirements]. *)
Variable systemPrompt : string.
Variable fixedRequirements : string.

(** The prompt the layout handler builds. The handler does not read
    [req.body]: the destructuring is commented out and [requirements] is
    assigned a literal. *)
Definition fullPrompt (body : LayoutRequest) : string :=
  let requirements := fixedRequirements in
  systemPrompt +:+ LF +:+ LF +:+ "User Requirements: " +:+ requirements.

(** The handler of [app.post('/api/generate-layout', ...)], run on a body
    that the [express.json()] of line 12 has parsed. *)
Definition generate_layout (body : LayoutRequest)
  : M Log (Response LayoutJson) :=
  try_catch
    (let* htmlContent := callGemini (fullPrompt body) in
     ret {| status := 200; text := htmlContent;
            json := Some {| html := Some htmlContent |} |})
    (fun error =>
       ret {| status := 500; text := message_of error;
              json := Some {| html := None |} |}).

Definition bad_request (msg : string) : Response ImageJson :=
  {| status := 400; text := msg; json := Some {| url := None |} |}.

(** First part of the remove-bg handler (the [if / else if / else] on the
    shape of [imageUrl]): either an early reply, or the MIME type and the
    base64 text it settles on. *)
Definition remove_bg_classify (imageUrl : option string)
  : M Log (Response ImageJson + string * option string) :=
  let mimeType := "image/png" in
  match imageUrl with
  | Some u =>
      if startsWith u "data:"
      then
        match match_data_url u with
        | None => ret (inl (bad_request "Invalid data URL format"))
        | Some (m1, m2) => ret (inr (m1, Some m2))
        end
      else if startsWith u "http://" || startsWith u "https://"
      then
        try_catch
          (let* r := call (CallRemote u) (remoteHost u) in
           let* response := await_fetch r in
           if negb (ok response)
           then throw (Error ("Failed to fetch imageUrl: "
                              +:+ pretty (status response)))
           else
             match json response with
             | None => throw FetchError
             | Some img =>
                 let buffer := remote_bytes img in
                 let mimeType :=
                   match content_type img with
                   | Some contentType =>
                       if negb (String.eqb contentType "")
                          && startsWith contentType "image/"
                       then contentType else mimeType
                   | None => mimeType
                   end in
                 ret (inr (mimeType, Some (b64encode buffer)))
             end)
          (fun err =>
             ret (inl (bad_request "Invalid imageUrl or unable to fetch it")))
      else ret (inr (mimeType, Some u))
  | None => ret (inr (mimeType, None))
  end.

(** The handler of [app.post('/api/remove-bg', ...)], run on a body that
    the [express.json()] of line 12 has parsed. *)
Definition remove_bg (imageUrl : option string)
  : M Log (Response ImageJson) :=
  try_catch
    (let* c := remove_bg_classify imageUrl in
     match c with
     | inl reply => ret reply
     | inr (mimeType, base64Data) =>
         (* lines 286-291: [base64Data] is assigned again *)
         let base64Data :=
           match imageUrl with
           | Some u => if startsWith u "data:image"
                       then split_comma_1 u else imageUrl
           | None => imageUrl
           end in
         if negb (truthy base64Data)
         then ret (bad_request "Invalid or missing imageUrl")
         else
           let inputBuffer := b64decode (to_string base64Data) in
           let detectedMime := detectImageMimeFromBuffer inputBuffer in
           let mimeType :=
             if negb (String.eqb detectedMime "")
                && negb (String.eqb detectedMime "application/octet-stream")
             then detectedMime else mimeType in
           let blob := {| blob_bytes := inputBuffer;
                          blob_type := mimeType |} in
           let* result :=
             call (CallRemoveBackground blob) (removeBackground blob) in
           match result with
           | None => throw (Error "removeBackground rejected")
           | Some outputPngBuffer =>
               if Nat.eqb (length outputPngBuffer) 0
               then
                 let fallbackOutputBase64 := b64encode inputBuffer in
                 let fallbackDataUrl :=
                   "data:image/png;base64," +:+ fallbackOutputBase64 in
                 ret {| status := 200; text := fallbackDataUrl;
                        json := Some {| url := Some fallbackDataUrl |} |}
               else
                 let outputBase64 := b64encode outputPngBuffer in
                 let outputDataUrl :=
                   "data:image/png;base64," +:+ outputBase64 in
                 ret {| status := 200; text := outputDataUrl;
                        json := Some {| url := Some outputDataUrl |} |}
           end
     end)
    (fun error =>
       ret {| status := 500; text := message_of error;
              json := Some {| url := None |} |}).

End Handlers.

(** What [generateImage] reads in the reply of Together AI: the base64
    text of the first image, when the reply is usable. *)
Definition generated_payload (r : FetchResult TogetherData) : option string :=
  match r with
  | Rejected => None
  | Fulfilled response =>
      if negb (ok response) then None
      else match json response with
           | None => None
           | Some d =>
               match data d with
               | None => None
               | Some items =>
                   match items !! 0%nat with
                   | None => None
                   | Some item =>
                       if truthy (b64_json item)
                       then Some (to_string (b64_json item))
                       else None
                   end
               end
           end
  end.

(** The sizes of the requests to the generator found in a log. *)
Definition sent_dimensions (log : Log) : list (Z * Z) :=
  omap (fun c => match c with
                 | CallTogether _ req => Some (req_width req, req_height req)
                 | _ => None
                 end) log.

(** The buffers handed to the segmentation library found in a log. *)
Definition segmented_inputs (log : Log) : list (list byte) :=
  omap (fun c => match c with
                 | CallRemoveBackground blob => Some (blob_bytes blob)
                 | _ => None
                 end) log.

End Server.

(** * The page script, [src/public/script.js] *)

Module Client.

(** An [<img x-prompt=...>] element of the poster, with the attributes and
    properties the script reads or writes. The four sizes are the values
    the element has when the script reads them (lines 43-44); how the
    browser changes them once an image is loaded is not modelled. *)
Record Img := {
  x_prompt : string;                 (* [getAttribute('x-prompt')] *)
  transparent : option string;       (* [getAttribute('transparent')] *)
  img_width : Z;                     (* [img.width] *)
  clientWidth : Z;
  img_height : Z;                    (* [img.height] *)
  clientHeight : Z;
  src : string;
  alt : string;
  data_x_image_generated : option string
}.

Definition set_src (v : string) (e : Img) : Img :=
  {| x_prompt := x_prompt e; transparent := transparent e;
     img_width := img_width e; clientWidth := clientWidth e;
     img_height := img_height e; clientHeight := clientHeight e;
     src := v; alt := alt e;
     data_x_image_generated := data_x_image_generated e |}.

Definition set_alt (v : string) (e : Img) : Img :=
  {| x_prompt := x_prompt e; transparent := transparent e;
     img_width := img_width e; clientWidth := clientWidth e;
     img_height := img_height e; clientHeight := clientHeight e;
     src := src e; alt := v;
     data_x_image_generated := data_x_image_generated e |}.

Definition set_generated (v : string) (e : Img) : Img :=
  {| x_prompt := x_prompt e; transparent := transparent e;
     img_width := img_width e; clientWidth := clientWidth e;
     img_height := img_height e; clientHeight := clientHeight e;
     src := src e; alt := alt e;
     data_x_image_generated := Some v |}.

(** The texts written to [loadingText.textContent]. *)
Inductive LoadingMsg :=
| GeneratingLayout
| GeneratingImages (total : nat)
| GeneratingImage (index total : nat).

Definition render (m : LoadingMsg) : string :=
  match m with
  | GeneratingLayout => "Generating layout with Gemini..."
  | GeneratingImages n => "Generating " +:+ pretty n +:+ " images..."
  | GeneratingImage i n =>
      "Generating image " +:+ pretty i +:+ " of " +:+ pretty n +:+ "..."
  end.

(** What the script does that can be observed from outside, in the order
    in which it does it. The index [i] of an image event is the position of
    the element in [images]. *)
Inductive Event :=
| Alert (msg : string)
| LoadingText (m : LoadingMsg)
| ConsoleLog (i : nat) (req : ImageRequest)
| ConsoleError (e : JsError)               (* [console.error('Error:', e)] *)
| ConsoleErrorImage (i : nat) (e : JsError)
                          (* [console.error('Error processing image:', e)] *)
| FetchLayout (body : LayoutRequest)
| FetchImage (i : nat) (body : ImageRequest)
| SetSrc (i : nat) (imageUrl : string)
| SetGenerated (i : nat)
| SetAlt (i : nat) (v : string).

(** The page: the form, the poster container with its placeholder
    elements in document order, the loading indicator, and the trace. *)
Record Page := {
  userInput : string;                (* [userInput.value] *)
  innerHTML : string;                (* [posterContainer.innerHTML] *)
  images : list Img;                 (* its [img[x-prompt]] elements *)
  disabled : bool;                   (* [generateBtn.disabled] *)
  hidden : bool;                     (* class [hidden] of the indicator *)
  textContent : string;              (* [loadingText.textContent] *)
  trace : list Event
}.

Definition with_poster (h : string) (l : list Img) (p : Page) : Page :=
  {| userInput := userInput p; innerHTML := h; images := l;
     disabled := disabled p; hidden := hidden p;
     textContent := textContent p; trace := trace p |}.

Definition with_images (l : list Img) (p : Page) : Page :=
  with_poster (innerHTML p) l p.

Definition with_disabled (b : bool) (p : Page) : Page :=
  {| userInput := userInput p; innerHTML := innerHTML p; images := images p;
     disabled := b; hidden := hidden p;
     textContent := textContent p; trace := trace p |}.

Definition with_hidden (b : bool) (p : Page) : Page :=
  {| userInput := userInput p; innerHTML := innerHTML p; images := images p;
     disabled := disabled p; hidden := b;
     textContent := textContent p; trace := trace p |}.

Definition with_textContent (s : string) (p : Page) : Page :=
  {| userInput := userInput p; innerHTML := innerHTML p; images := images p;
     disabled := disabled p; hidden := hidden p;
     textContent := s; trace := trace p |}.

Definition with_event (e : Event) (p : Page) : Page :=
  {| userInput := userInput p; innerHTML := innerHTML p; images := images p;
     disabled := disabled p; hidden := hidden p;
     textContent := textContent p; trace := trace p ++ [e] |}.

Definition FAILED_ALT : string := "Image generation failed".

(** The body of the request for one placeholder (lines 41-44 and 59). *)
Definition image_request (img : Img) : ImageRequest :=
  let prompt := x_prompt img in
  let isTransparent :=
    match transparent img with
    | Some v => String.eqb v "true"
    | None => false
    end in
  let width := or_number (or_number (img_width img) (clientWidth img)) 300 in
  let height := or_number (or_number (img_height img) (clientHeight img)) 300 in
  {| prompt := prompt; width := width; height := height;
     isTransparent := isTransparent |}.

Section Handler.

(** The browser: assigning [innerHTML] parses the markup;
    [querySelectorAll('img[x-prompt]')] lists the placeholders. *)
Variable parseImages : string -> list Img.

(** The network: the reply to the layout request, and to the image
    request made for the [i]-th placeholder. *)
Variable fetchLayout : LayoutRequest -> FetchResult LayoutJson.
Variable fetchImage : nat -> ImageRequest -> FetchResult ImageJson.

Definition emit (e : Event) : M Page unit := modify (with_event e).

Definition alert (msg : string) : M Page unit := emit (Alert msg).

Definition set_loadingText (m : LoadingMsg) : M Page unit :=
  exec modify (with_textContent (render m)) in emit (LoadingText m).

Definition set_innerHTML (h : string) : M Page unit :=
  modify (with_poster h (parseImages h)).

Definition update_image (i : nat) (f : Img -> Img) : M Page unit :=
  modify (fun p => with_images (alter f i (images p)) p).

(** One turn of the [for] loop (lines 40-88), [total] being
    [images.length]. *)
Definition process_image (total i : nat) : M Page unit :=
  let* p := get in
  match images p !! i with
  | None => throw TypeError
  | Some img =>
      let req := image_request img in
      exec emit (ConsoleLog i req) in
      exec set_loadingText (GeneratingImage (i + 1) total) in
      try_catch
        (exec emit (FetchImage i req) in
         let* imageResponse := await_fetch (fetchImage i req) in
         if negb (ok imageResponse)
         then throw (Error "Failed to generate image")
         else
           let* imageData := await_json imageResponse in
           let imageUrl := to_string (url imageData) in
           exec update_image i (set_src imageUrl) in
           exec emit (SetSrc i imageUrl) in
           exec update_image i (set_generated "1") in
           emit (SetGenerated i))
        (fun imgError =>
           exec emit (ConsoleErrorImage i imgError) in
           exec update_image i (set_alt FAILED_ALT) in
           emit (SetAlt i FAILED_ALT))
  end.

(** [for (let i = ...; i < images.length; i++)] with [todo] turns left. *)
Fixpoint for_loop (total todo i : nat) : M Page unit :=
  match todo with
  | O => ret tt
  | S todo' =>
      exec process_image total i in for_loop total todo' (S i)
  end.

(** The [click] listener of the generate button. *)
Definition click : M Page unit :=
  let* p := get in
  let requirements := trim (userInput p) in
  if String.eqb requirements ""
  then alert "Please enter your requirements first."
  else
    exec set_innerHTML "" in
    exec modify (with_disabled true) in
    exec modify (with_hidden false) in
    exec set_loadingText GeneratingLayout in
    try_finally
      (try_catch
         (let body := {| requirements := requirements |} in
          exec emit (FetchLayout body) in
          let* layoutResponse := await_fetch (fetchLayout body) in
          if negb (ok layoutResponse)
          then throw (Error "Failed to generate layout")
          else
            let* layoutData := await_json layoutResponse in
            exec set_innerHTML (to_string (html layoutData)) in
            let* p := get in
            let total := length (images p) in
            if Nat.ltb 0 total
            then
              exec set_loadingText (GeneratingImages total) in
              for_loop total total 0
            else ret tt)
         (fun error =>
            exec emit (ConsoleError error) in
            alert "An error occurred while generating the flyer. Please try again."))
      (exec modify (with_hidden true) in
       modify (with_disabled false)).

(** *** The turn of one placeholder in closed form *)

(** What the inner [try] block makes of the reply to an image request:
    the error it throws, or the URL it assigns to [img.src]. *)
Definition image_outcome (r : FetchResult ImageJson) : JsError + string :=
  match r with
  | Rejected => inl FetchError
  | Fulfilled imageResponse =>
      if negb (ok imageResponse)
      then inl (Error "Failed to generate image")
      else match json imageResponse with
           | None => inl JsonError
           | Some imageData => inr (to_string (url imageData))
           end
  end.

(** What lines 23-31 make of the reply to the layout request: the error
    thrown, or the markup assigned to the poster. *)
Definition layout_outcome (r : FetchResult LayoutJson) : JsError + string :=
  match r with
  | Rejected => inl FetchError
  | Fulfilled layoutResponse =>
      if negb (ok layoutResponse)
      then inl (Error "Failed to generate layout")
      else match json layoutResponse with
           | None => inl JsonError
           | Some layoutData => inr (to_string (html layoutData))
           end
  end.

(** The element after its turn. *)
Definition resolve (i : nat) (img : Img) : Img :=
  match image_outcome (fetchImage i (image_request img)) with
  | inr imageUrl => set_generated "1" (set_src imageUrl img)
  | inl _ => set_alt FAILED_ALT img
  end.

(** The events of its turn. *)
Definition item_events (total i : nat) (img : Img) : list Event :=
  let req := image_request img in
  [ConsoleLog i req; LoadingText (GeneratingImage (i + 1) total);
   FetchImage i req]
  ++ match image_outcome (fetchImage i req) with
     | inr imageUrl => [SetSrc i imageUrl; SetGenerated i]
     | inl imgError => [ConsoleErrorImage i imgError; SetAlt i FAILED_ALT]
     end.

(** The page after the turn of placeholder [i]. *)
Definition after_turn (total i : nat) (img : Img) (p : Page) : Page :=
  {| userInput := userInput p;
     innerHTML := innerHTML p;
     images := <[i := resolve i img]> (images p);
     disabled := disabled p;
     hidden := hidden p;
     textContent := render (GeneratingImage (i + 1) total);
     trace := trace p ++ item_events total i img |}.

(** The events of a run whose layout request gave the markup [h]. *)
Definition run_events (body : LayoutRequest) (imgs : list Img)
  : list Event :=
  [LoadingText GeneratingLayout; FetchLayout body]
  ++ (if Nat.ltb 0 (length imgs)
      then [LoadingText (GeneratingImages (length imgs))] else [])
  ++ concat (imap (item_events (length imgs)) imgs).

End Handler.

(** *** The placeholder life cycle, read off the element *)

Inductive ResolutionState := Pending | Resolved | Failed.

(** An element is [Resolved] once the script has marked it generated,
    [Failed] once it carries the failure text, [Pending] before. *)
Definition marked_generated (img : Img) : bool :=
  match data_x_image_generated img with
  | Some v => String.eqb v "1"
  | None => false
  end.

Definition marked_failed (img : Img) : bool :=
  String.eqb (alt img) FAILED_ALT.

Definition resolutionState (img : Img) : ResolutionState :=
  if marked_generated img then Resolved
  else if marked_failed img then Failed
  else Pending.

Definition is_state (st : ResolutionState) (img : Img) : bool :=
  match st, resolutionState img with
  | Pending, Pending | Resolved, Resolved | Failed, Failed => true
  | _, _ => false
  end.

(** The counters of a run, counted on the page. *)
Definition completed (p : Page) : nat :=
  length (List.filter (is_state Resolved) (images p)).

Definition failed (p : Page) : nat :=
  length (List.filter (is_state Failed) (images p)).

(** The per-item start of progress: [Generating image i of n...]. *)
Definition is_start (e : Event) : bool :=
  match e with
  | LoadingText (GeneratingImage _ _) => true
  | _ => false
  end.

Definition is_alert (e : Event) : bool :=
  match e with
  | Alert _ => true
  | _ => false
  end.

Definition is_fetch (e : Event) : bool :=
  match e with
  | FetchLayout _ | FetchImage _ _ => true
  | _ => false
  end.

Definition is_fetch_image (e : Event) : bool :=
  match e with
  | FetchImage _ _ => true
  | _ => false
  end.

(** The events of a run that took the page from [p] to [p']. *)
Definition events_since (p p' : Page) : list Event :=
  drop (length (trace p)) (trace p').

(** The placeholder an event belongs to. *)
Definition event_index (e : Event) : option nat :=
  match e with
  | ConsoleLog i _ | ConsoleErrorImage i _ | FetchImage i _ | SetSrc i _
  | SetGenerated i | SetAlt i _ => Some i
  | LoadingText (GeneratingImage i _) => Some (i - 1)%nat
  | _ => None
  end.

End Client.

(** * Page and server together *)

Module System.

Import Server Client.

Section World.

Variable GEMINI_API_KEY : option string.
Variable TOGETHER_API_KEY : option string.
Variable b64decode : string -> list byte.
Variable b64encode : list byte -> string.
Variable systemPrompt : string.
Variable fixedRequirements : string.
Variable parseImages : string -> list Img.

(** The services, as they answer the request made for the layout and
    for the [i]-th placeholder. *)
Variable geminiApi : string -> FetchResult GeminiData.
Variable togetherApi : nat -> TogetherRequest -> FetchResult TogetherData.
Variable removeBackground : nat -> Blob -> option (list byte).

(** Whether the request of the page reaches the server and the reply
    comes back. *)
Variable online_layout : bool.
Variable online_image : nat -> bool.

(** One request served: the reply the page gets and the calls the
    handler made on the way. *)
Definition serve {J} (online : bool) (handler : M Log (Response J))
  : FetchResult J * Log :=
  if online
  then match handler [] with
       | (Val reply, log) => (Fulfilled reply, log)
       | (Throw _, log) => (Rejected, log)
       end
  else (Rejected, []).

Definition layout_exchange (body : LayoutRequest)
  : FetchResult LayoutJson * Log :=
  serve online_layout
    (generate_layout GEMINI_API_KEY geminiApi systemPrompt
       fixedRequirements body).

Definition image_exchange (i : nat) (body : ImageRequest)
  : FetchResult ImageJson * Log :=
  serve (online_image i)
    (generate_image TOGETHER_API_KEY b64decode b64encode
       (togetherApi i) (removeBackground i) body).

Definition fetchLayout (body : LayoutRequest) : FetchResult LayoutJson :=
  fst (layout_exchange body).

Definition fetchImage (i : nat) (body : ImageRequest)
  : FetchResult ImageJson :=
  fst (image_exchange i body).

(** The click handler of a page served by this server. *)
Definition click : M Page unit :=
  Client.click parseImages fetchLayout fetchImage.

(** The calls to the outside that an event of the page sets off. *)
Definition server_calls (e : Event) : Log :=
  match e with
  | FetchLayout body => snd (layout_exchange body)
  | FetchImage i body => snd (image_exchange i body)
  | _ => []
  end.

Definition external_calls (tr : list Event) : Log :=
  List.concat (List.map server_calls tr).

(** The request that reaches the generator for a placeholder. *)
Definition raster_request (img : Img) : TogetherRequest :=
  let body := image_request img in
  together_request (prompt body) (valid_dimension (width body))
    (valid_dimension (height body)).

End World.

Definition is_gemini_call (c : ExtCall) : bool :=
  match c with
  | CallGemini _ _ => true
  | _ => false
  end.

End System.

(** * A small world to run the model in *)

Module Sample.

Import Server Client.

(** A generator that answers every request with the same one-image reply. *)
Definition constant_generator (b64 : string)
  : TogetherRequest -> FetchResult TogetherData :=
  fun _ => Fulfilled {| status := 200; text := "";
                        json := Some {| data := Some [ {| b64_json := Some b64 |} ] |} |}.

(** A remote host that serves the given bytes. *)
Definition serving (bytes : list byte) (contentType : option string)
  : string -> FetchResult RemoteImage :=
  fun _ => Fulfilled {| status := 200; text := "";
                        json := Some {| remote_bytes := bytes;
                                        content_type := contentType |} |}.

(** A codec that is never looked into. *)
Definition decode (s : string) : list byte := [].
Definition encode (b : list byte) : string := "".

(** A layout with three placeholders; the second is to be transparent. *)
Definition poster : string := "<div><img/><img/><img/></div>".

Definition placeholder (x_prompt : string) (transparent : string)
    (w h : Z) : Img :=
  {| x_prompt := x_prompt; transparent := Some transparent;
     img_width := w; clientWidth := 0; img_height := h; clientHeight := 0;
     src := ""; alt := ""; data_x_image_generated := None |}.

Definition kite : Img := placeholder "a red kite" "false" 10 10.
Definition palm : Img := placeholder "a palm tree sticker" "true" 70 81.
Definition wave : Img := placeholder "a wave at sunset" "false" 0 0.

Definition parse (h : string) : list Img :=
  if String.eqb h poster then [kite; palm; wave] else [].

Definition page (brief : string) : Page :=
  {| userInput := brief; innerHTML := ""; images := []; disabled := false;
     hidden := true; textContent := ""; trace := [] |}.

(** The network as the page sees it: the layout arrives, the second image
    request is answered 500. *)
Definition layout_ok (body : LayoutRequest) : FetchResult LayoutJson :=
  Fulfilled {| status := 200; text := "";
               json := Some {| html := Some poster |} |}.

Definition image_replies (i : nat) (body : ImageRequest)
  : FetchResult ImageJson :=
  if Nat.eqb i 1
  then Fulfilled {| status := 500; text := "";
                    json := Some {| url := None |} |}
  else Fulfilled {| status := 200; text := "";
                    json := Some {| url := Some "data:image/jpeg;base64,AAAA" |} |}.

(** The services behind the server. *)
Definition gemini (fullPrompt : string) : FetchResult GeminiData :=
  Fulfilled
    {| status := 200; text := "";
       json := Some {| candidates :=
                 Some [ {| content :=
                     Some {| parts :=
                         Some [ {| part_text := Some poster |} ] |} |} ] |} |}.

Definition gemini_down (fullPrompt : string) : FetchResult GeminiData :=
  Rejected.

Definition together (i : nat) : TogetherRequest -> FetchResult TogetherData :=
  constant_generator "iVBORw0KGgo=".

Definition segmentation_down (i : nat) (blob : Blob) : option (list byte) :=
  None.

(** The click handler in this world, the language model being [llm]. *)
Definition click (llm : string -> FetchResult GeminiData) : M Page unit :=
  System.click (Some "gemini-key") (Some "together-key") decode encode
    "system prompt" "fixed requirements" parse llm together
    segmentation_down true (fun _ => true).

Definition external_calls (llm : string -> FetchResult GeminiData)
  : list Event -> Log :=
  System.external_calls (Some "gemini-key") (Some "together-key") decode
    encode "system prompt" "fixed requirements" llm together
    segmentation_down true (fun _ => true).

End Sample.

(** * Earlier versions of the server, [src/unnamed/part_000] *)

Module Legacy.

Import Server.

(** ** First version (lines 1-240): the library is given the buffer *)

Module V1.

Section First.

Variable TOGETHER_API_KEY : option string.
Variable b64decode : string -> list byte.
Variable b64encode : list byte -> string.
Variable togetherApi : TogetherRequest -> FetchResult TogetherData.

(** [removeBackground(inputBuffer)]; [None] when its promise rejects. *)
Variable removeBackground : list byte -> option (list byte).

(** The buffers handed to the library, in order. *)
Definition Buffers : Type := list (list byte).

(** [async function removeBackgroundFun(imageBase64)], lines 112-137 *)
Definition removeBackgroundFun (imageBase64 : string) : M Buffers string :=
  try_catch
    (let inputBuffer := b64decode imageBase64 in
     let* outputBuffer :=
       (fun log => (Val (removeBackground inputBuffer), log ++ [inputBuffer])) in
     match outputBuffer with
     | None => throw (Error "removeBackground rejected")
     | Some outputBuffer =>
         let outputBase64 := b64encode outputBuffer in
         let outputDataUrl := "data:image/png;base64," +:+ outputBase64 in
         ret outputDataUrl
     end)
    (fun error => ret imageBase64).

(** [async function generateImage(prompt, width, height, isTransparent)],
    lines 53-109 *)
Definition generateImage (prompt : string) (width height : Z)
    (isTransparent : bool) : M Buffers string :=
  let width := if width <? 64 then 64 else width in
  let height := if height <? 64 then 64 else height in
  if negb (truthy TOGETHER_API_KEY)
  then throw (Error "TOGETHER_API_KEY is not set.")
  else
    let validWidth := roundToMultiple16 width in
    let validHeight := roundToMultiple16 height in
    let body :=
      {| req_model := "black-forest-labs/FLUX.1-schnell-Free";
         req_prompt := prompt;
         req_width := validWidth;
         req_height := validHeight;
         req_n := 1;
         req_output_format := "png";
         req_response_format := "base64" |} in
    let* response := await_fetch (togetherApi body) in
    if negb (ok response)
    then throw (Error ("Together AI Error: " +:+ pretty (status response)
                       +:+ " - " +:+ text response))
    else
      let* data := await_json response in
      match Server.data data with
      | None => throw (Error "Invalid response from Together AI")
      | Some items =>
          match items !! 0%nat with
          | None => throw TypeError
          | Some item =>
              if truthy (b64_json item)
              then
                let b64 := to_string (b64_json item) in
                if isTransparent
                then removeBackgroundFun b64
                else ret ("data:image/jpeg;base64," +:+ b64)
              else throw (Error "Invalid response from Together AI")
          end
      end.

End First.

End V1.

(** ** The layout handler of both earlier versions (lines 140-176 and
    359-395): the brief is read from the body *)

Module Layout.

Section Handler.

Variable GEMINI_API_KEY : option string.
Variable geminiApi : string -> FetchResult GeminiData.

(** The template literal bound to [systemPrompt]. *)
Variable systemPrompt : string.

Definition fullPrompt (body : LayoutRequest) : string :=
  let requirements := requirements body in
  systemPrompt +:+ LF +:+ LF +:+ "User Requirements: " +:+ requirements.

(** [app.post('/api/generate-layout', ...)] *)
Definition generate_layout (body : LayoutRequest)
  : M Log (Response LayoutJson) :=
  try_catch
    (let* htmlContent := callGemini GEMINI_API_KEY geminiApi (fullPrompt body) in
     ret {| status := 200; text := htmlContent;
            json := Some {| html := Some htmlContent |} |})
    (fun error =>
       ret {| status := 500; text := message_of error;
              json := Some {| html := None |} |}).

End Handler.

End Layout.

(** ** Second version (lines 241-427): background removal is a stub *)

Module V2.

(** Body of its request to Together AI. *)
Record TogetherRequest2 := {
  req2_model : string;
  req2_prompt : string;
  req2_width : Z;
  req2_height : Z;
  req2_steps : Z;
  req2_n : Z;
  req2_response_format : string
}.

Section Second.

Variable TOGETHER_API_KEY : option string.
Variable IMAGE_GEN_MODEL : option string.
Variable togetherApi : TogetherRequest2 -> FetchResult TogetherData.

(** What this version asks of the outside. *)
Definition Requests : Type := list TogetherRequest2.

(** [async function removeBackground(imageBase64)], lines 351-356 *)
Definition removeBackground (imageBase64 : string) : M Requests string :=
  ret imageBase64.

(** [async function generateImage(prompt, width, height, isTransparent)],
    lines 292-348 *)
Definition generateImage (prompt : string) (width height : Z)
    (isTransparent : bool) : M Requests string :=
  let width := if width <? 64 then 64 else width in
  let height := if height <? 64 then 64 else height in
  let model :=
    if truthy IMAGE_GEN_MODEL then to_string IMAGE_GEN_MODEL
    else "black-forest-labs/FLUX.1-schnell" in
  if negb (truthy TOGETHER_API_KEY)
  then throw (Error "TOGETHER_API_KEY is not set.")
  else
    let validWidth := roundToMultiple16 width in
    let validHeight := roundToMultiple16 height in
    let body :=
      {| req2_model := model;
         req2_prompt := prompt;
         req2_width := validWidth;
         req2_height := validHeight;
         req2_steps := 4;
         req2_n := 1;
         req2_response_format := "b64_json" |} in
    let* r := (fun log => (Val (togetherApi body), log ++ [body])) in
    let* response := await_fetch r in
    if negb (ok response)
    then throw (Error ("Together AI Error: " +:+ pretty (status response)
                       +:+ " - " +:+ text response))
    else
      let* data := await_json response in
      match Server.data data with
      | None => throw (Error "Invalid response from Together AI")
      | Some items =>
          match items !! 0%nat with
          | None => throw TypeError
          | Some item =>
              if truthy (b64_json item)
              then
                let b64 := to_string (b64_json item) in
                if isTransparent
                then removeBackground ("data:image/jpeg;base64," +:+ b64)
                else ret ("data:image/jpeg;base64," +:+ b64)
              else throw (Error "Invalid response from Together AI")
          end
      end.

(** [app.post('/api/remove-bg', ...)], lines 412-423 *)
Definition remove_bg (imageUrl : option string)
  : M Requests (Response ImageJson) :=
  try_catch
    (match imageUrl with
     | Some u =>
         let* processedImageUrl := removeBackground u in
         ret {| status := 200; text := processedImageUrl;
                json := Some {| url := Some processedImageUrl |} |}
     | None =>
         ret {| status := 200; text := "";
                json := Some {| url := None |} |}
     end)
    (fun error =>
       ret {| status := 500; text := message_of error;
              json := Some {| url := None |} |}).

End Second.

End V2.

End Legacy.

(** * Observations on strings *)

Module Observe.

(** Whether [pat] occurs somewhere in [s]. *)
Fixpoint occurs (pat s : string) : bool :=
  match s with
  | EmptyString => String.prefix pat EmptyString
  | String c rest => String.prefix pat s || occurs pat rest
  end.

(** The number of back-quotes that [s] starts with. *)
Fixpoint ticks (s : string) : nat :=
  match s with
  | EmptyString => O
  | String c rest => if Ascii.eqb c "`"%char then S (ticks rest) else O
  end.

(** No comma in [s]. *)
Fixpoint no_comma (s : string) : bool :=
  match s with
  | EmptyString => true
  | String c rest => negb (Ascii.eqb c ","%char) && no_comma rest
  end.

(** Only characters of [is_mime_char] in [s]. *)
Fixpoint all_mime (s : string) : bool :=
  match s with
  | EmptyString => true
  | String c rest => is_mime_char c && all_mime rest
  end.

(** The MIME type that the remove-bg handler settles on: the sniffed one
    when the sniff is conclusive, the given one otherwise. *)
Definition settled_mime (given : string) (buffer : list byte) : string :=
  let detectedMime := Server.detectImageMimeFromBuffer buffer in
  if negb (String.eqb detectedMime "")
     && negb (String.eqb detectedMime "application/octet-stream")
  then detectedMime else given.

(** What the remove-bg handler gets from a remote host: the image, when
    the download succeeds. *)
Definition downloaded (r : FetchResult Server.RemoteImage)
  : option Server.RemoteImage :=
  match r with
  | Rejected => None
  | Fulfilled response => if ok response then json response else None
  end.

End Observe.

(** * More of the small world *)

Module Sample2.

Import Server Client.

(** A language model that wraps its markup in a code fence. *)
Definition gemini_fenced (fullPrompt : string) : FetchResult GeminiData :=
  Fulfilled
    {| status := 200; text := "";
       json := Some {| candidates :=
                 Some [ {| content :=
                     Some {| parts :=
                         Some [ {| part_text :=
                                     Some "```html<div></div>```" |} ] |} |} ] |} |}.

(** A decoder that can be told apart from a constant one: the code units
    of the text. *)
Definition text_bytes (s : string) : list byte :=
  List.map byte_of_ascii (list_ascii_of_string s).

(** A segmentation that returns a fixed cut-out. *)
Definition cutout : list byte := [x89; x50; x4e; x47].

Definition segmentation_up (i : nat) (blob : Blob) : option (list byte) :=
  Some cutout.

(** A layout whose placeholders are all opaque. *)
Definition opaque_parse (h : string) : list Img :=
  [Sample.kite; Sample.wave].

(** The click handler of [Sample], with the Together key, the parser and
    the segmentation as given. *)
Definition click (key : option string) (parse : string -> list Img)
    (segmentation : nat -> Blob -> option (list byte)) : M Page unit :=
  System.click (Some "gemini-key") key Sample.decode Sample.encode
    "system prompt" "fixed requirements" parse Sample.gemini Sample.together
    segmentation true (fun _ => true).

Definition external_calls (key : option string)
    (segmentation : nat -> Blob -> option (list byte))
  : list Event -> Log :=
  System.external_calls (Some "gemini-key") key Sample.decode Sample.encode
    "system prompt" "fixed requirements" Sample.gemini Sample.together
    segmentation true (fun _ => true).

End Sample2.

(** * Properties of the server *)

Module ServerFacts.

Import Server Sample.

(** ** Sizes *)

Lemma clamp64_ge (n : Z) : 64 <= clamp64 n.
Proof. unfold clamp64. destruct (Z.ltb_spec n 64); lia. Qed.

Lemma clamp64_max (n : Z) : clamp64 n = Z.max 64 n.
Proof. unfold clamp64. destruct (Z.ltb_spec n 64); lia. Qed.

(** [Math.round(p / q)] is the integer [r] with [r - 1/2 <= p/q < r + 1/2]. *)
Lemma Math_round_div_spec (p q : Z) :
  0 < q ->
  2 * q * Math_round_div p q - q <= 2 * p < 2 * q * Math_round_div p q + q.
Proof.
  intros Hq. unfold Math_round_div.
  pose proof (Z.div_mod (2 * p + q) (2 * q)) as Hdm.
  pose proof (Z.mod_pos_bound (2 * p + q) (2 * q)) as Hb.
  lia.
Qed.

Lemma roundToMultiple16_nearest (n : Z) :
  n <> 0 ->
  roundToMultiple16 n mod 16 = 0 /\
  roundToMultiple16 n - 8 <= n < roundToMultiple16 n + 8.
Proof.
  intros Hn. unfold roundToMultiple16, or_number.
  destruct (Z.eqb_spec n 0) as [|_]; [contradiction|].
  split.
  - apply Z.mod_mul. lia.
  - pose proof (Math_round_div_spec n 16). lia.
Qed.

Lemma valid_dimension_spec (n : Z) :
  64 <= valid_dimension n /\
  valid_dimension n mod 16 = 0 /\
  Z.abs (valid_dimension n - Z.max 64 n) <= 8.
Proof.
  unfold valid_dimension.
  pose proof (clamp64_ge n) as Hc.
  destruct (roundToMultiple16_nearest (clamp64 n)) as [Hm Hr]; [lia|].
  rewrite <- clamp64_max.
  repeat split; try assumption; try lia.
  apply Z.mod_divide in Hm; [|lia]. destruct Hm as [k Hk]. lia.
Qed.

(** ** [generateImage] and [removeBackgroundFun] *)

Section GenerateImage.

Variable TOGETHER_API_KEY : option string.
Variable b64decode : string -> list byte.
Variable b64encode : list byte -> string.
Variable togetherApi : TogetherRequest -> FetchResult TogetherData.
Variable removeBackground : Blob -> option (list byte).

Local Abbreviation generateImage :=
  (Server.generateImage TOGETHER_API_KEY b64decode b64encode togetherApi
     removeBackground).
Local Abbreviation removeBackgroundFun :=
  (Server.removeBackgroundFun b64decode b64encode removeBackground).
Local Abbreviation generate_image :=
  (Server.generate_image TOGETHER_API_KEY b64decode b64encode togetherApi
     removeBackground).
Local Abbreviation blob_of := (Server.blob_of b64decode).

(** [removeBackgroundFun] always returns, with a PNG-labelled data URL:
    of the cut-out, or of its argument when the library fails. *)
Lemma removeBackgroundFun_run (imageBase64 : string) (log : Log) :
  removeBackgroundFun imageBase64 log =
  (Val ("data:image/png;base64," +:+
        match removeBackground (blob_of imageBase64) with
        | Some outputBuffer => b64encode outputBuffer
        | None => imageBase64
        end),
   log ++ [CallRemoveBackground (blob_of imageBase64)]).
Proof.
  unfold Server.removeBackgroundFun, try_catch, bind, call, Server.blob_of.
  destruct (removeBackground _); reflexivity.
Qed.

Lemma generateImage_no_key prompt w h t log :
  truthy TOGETHER_API_KEY = false ->
  generateImage prompt w h t log =
  (Throw (Error "TOGETHER_API_KEY is not set."), log).
Proof.
  intros Hkey. unfold Server.generateImage. rewrite Hkey. reflexivity.
Qed.

Lemma generateImage_success prompt w h t log b64 :
  truthy TOGETHER_API_KEY = true ->
  generated_payload
    (togetherApi (together_request prompt (valid_dimension w)
                    (valid_dimension h))) = Some b64 ->
  generateImage prompt w h t log =
  let log' := log ++ [CallTogether (to_string TOGETHER_API_KEY)
                        (together_request prompt (valid_dimension w)
                           (valid_dimension h))] in
  if t then removeBackgroundFun b64 log'
  else (Val ("data:image/jpeg;base64," +:+ b64), log').
Proof.
  intros Hkey Hpay. unfold Server.generateImage. rewrite Hkey.
  cbn [negb]. unfold bind at 1. unfold call.
  fold (clamp64 w) (clamp64 h).
  fold (valid_dimension w) (valid_dimension h).
  unfold generated_payload in Hpay.
  destruct (togetherApi _) as [|response]; [discriminate|].
  unfold bind, await_fetch, await_json, ret. cbn [fst snd].
  destruct (ok response); [|discriminate]. cbn [negb] in *.
  destruct (json response) as [d|]; [|discriminate].
  destruct (data d) as [items|]; [|discriminate].
  destruct (items !! 0%nat) as [item|]; [|discriminate].
  destruct (truthy (b64_json item)); [|discriminate].
  injection Hpay as <-. destruct t; reflexivity.
Qed.

Lemma generateImage_failure prompt w h t log :
  truthy TOGETHER_API_KEY = true ->
  generated_payload
    (togetherApi (together_request prompt (valid_dimension w)
                    (valid_dimension h))) = None ->
  exists e,
    generateImage prompt w h t log =
    (Throw e,
     log ++ [CallTogether (to_string TOGETHER_API_KEY)
               (together_request prompt (valid_dimension w)
                  (valid_dimension h))]).
Proof.
  intros Hkey Hpay. unfold Server.generateImage. rewrite Hkey.
  cbn [negb]. unfold bind at 1. unfold call.
  fold (clamp64 w) (clamp64 h).
  fold (valid_dimension w) (valid_dimension h).
  unfold generated_payload in Hpay.
  destruct (togetherApi _) as [|response]; [eexists; reflexivity|].
  unfold bind, await_fetch, await_json, ret, throw. cbn [fst snd].
  destruct (ok response); [|eexists; reflexivity]. cbn [negb] in *.
  destruct (json response) as [d|]; [|eexists; reflexivity].
  destruct (data d) as [items|]; [|eexists; reflexivity].
  destruct (items !! 0%nat) as [item|]; [|eexists; reflexivity].
  destruct (truthy (b64_json item)); [discriminate|].
  eexists; reflexivity.
Qed.

Lemma generateImage_sent_dimensions prompt w h t :
  truthy TOGETHER_API_KEY = true ->
  sent_dimensions (snd (generateImage prompt w h t [])) =
  [(valid_dimension w, valid_dimension h)].
Proof.
  intros Hkey.
  destruct (generated_payload
              (togetherApi (together_request prompt (valid_dimension w)
                              (valid_dimension h)))) as [b64|] eqn:Hpay.
  - rewrite (generateImage_success prompt w h t [] b64 Hkey Hpay).
    cbn zeta. destruct t; [rewrite removeBackgroundFun_run|]; reflexivity.
  - destruct (generateImage_failure prompt w h t [] Hkey Hpay) as [e ->].
    reflexivity.
Qed.

End GenerateImage.

(** C5. Before the call to the image generator every size is raised to at
    least 64 and then rounded to the nearest multiple of 16: the sizes in
    the request that [generateImage] sends are [valid_dimension] of the
    sizes it was given; such a size is at least 64, a multiple of 16 and
    within 8 of the larger of 64 and the input. For 10 by 10 both sizes
    sent are at least 64; for 70 by 81 each is a multiple of 16 within 8
    of the input. *)
Theorem dimension_resolution
    (TOGETHER_API_KEY : option string)
    (b64decode : string -> list byte) (b64encode : list byte -> string)
    (togetherApi : TogetherRequest -> FetchResult TogetherData)
    (removeBackground : Blob -> option (list byte))
    (prompt : string) (w h : Z) (t : bool) :
  truthy TOGETHER_API_KEY = true ->
  sent_dimensions
    (snd (generateImage TOGETHER_API_KEY b64decode b64encode togetherApi
            removeBackground prompt w h t []))
  = [(valid_dimension w, valid_dimension h)]
  /\ (64 <= valid_dimension w /\ valid_dimension w mod 16 = 0
      /\ Z.abs (valid_dimension w - Z.max 64 w) <= 8)
  /\ (64 <= valid_dimension h /\ valid_dimension h mod 16 = 0
      /\ Z.abs (valid_dimension h - Z.max 64 h) <= 8)
  /\ 64 <= valid_dimension 10
  /\ (valid_dimension 70 mod 16 = 0 /\ Z.abs (valid_dimension 70 - 70) <= 8)
  /\ (valid_dimension 81 mod 16 = 0 /\ Z.abs (valid_dimension 81 - 81) <= 8).
Proof.
  intros Hkey. split; [|split; [|split]].
  - apply generateImage_sent_dimensions, Hkey.
  - apply valid_dimension_spec.
  - apply valid_dimension_spec.
  - vm_compute. repeat split; discriminate.
Qed.

Lemma dimension_resolution_witness :
  sent_dimensions
    (snd (generateImage (Some "key") (fun _ => []) (fun _ => "")
            (fun _ => Rejected) (fun _ => None) "a red kite" 70 81 false []))
  = [(64, 80)].
Proof.
  apply (dimension_resolution (Some "key") (fun _ => []) (fun _ => "")
           (fun _ => Rejected) (fun _ => None) "a red kite" 70 81 false).
  reflexivity.
Defined.

(** C10. When the generator returns an image, the request that was sent
    (the one request of the call) asked for [png] output; a
    non-transparent result is the data URL
    [data:image/jpeg;base64,] followed by the returned base64 text, and a
    transparent result is a data URL that starts with
    [data:image/png;base64,]. *)
Theorem jpeg_label_on_png_request
    (TOGETHER_API_KEY : option string)
    (b64decode : string -> list byte) (b64encode : list byte -> string)
    (togetherApi : TogetherRequest -> FetchResult TogetherData)
    (removeBackground : Blob -> option (list byte))
    (prompt : string) (w h : Z) (b64 : string) :
  truthy TOGETHER_API_KEY = true ->
  generated_payload
    (togetherApi (together_request prompt (valid_dimension w)
                    (valid_dimension h))) = Some b64 ->
  req_output_format
    (together_request prompt (valid_dimension w) (valid_dimension h)) = "png"
  /\ sent_dimensions
       (snd (generateImage TOGETHER_API_KEY b64decode b64encode togetherApi
               removeBackground prompt w h false []))
     = [(valid_dimension w, valid_dimension h)]
  /\ fst (generateImage TOGETHER_API_KEY b64decode b64encode togetherApi
            removeBackground prompt w h false [])
     = Val ("data:image/jpeg;base64," +:+ b64)
  /\ exists payload,
       fst (generateImage TOGETHER_API_KEY b64decode b64encode togetherApi
              removeBackground prompt w h true [])
       = Val ("data:image/png;base64," +:+ payload).
Proof.
  intros Hkey Hpay. split; [reflexivity|]. split; [|split].
  - apply generateImage_sent_dimensions, Hkey.
  - rewrite (generateImage_success _ _ _ _ _ _ _ _ _ _ _ Hkey Hpay).
    reflexivity.
  - rewrite (generateImage_success _ _ _ _ _ _ _ _ _ _ _ Hkey Hpay).
    cbn zeta. rewrite removeBackgroundFun_run. eexists. reflexivity.
Qed.

Lemma jpeg_label_on_png_request_witness :
  fst (generateImage (Some "key") (fun _ => []) (fun _ => "")
         (constant_generator "iVBORw0KGgo=") (fun _ => None)
         "a red kite" 300 300 false [])
  = Val "data:image/jpeg;base64,iVBORw0KGgo=".
Proof.
  apply (jpeg_label_on_png_request (Some "key") (fun _ => []) (fun _ => "")
           (constant_generator "iVBORw0KGgo=") (fun _ => None)
           "a red kite" 300 300 "iVBORw0KGgo="); reflexivity.
Defined.

(** ** The layout handler *)

(** C4, as the code has it. The prompt that the layout handler sends to
    the language model does not depend on the body of the request: the
    briefs [A vibrant summer party flyer] and [A jazz night poster], and
    any two others, lead to the same prompt, the same call and the same
    reply. *)
Theorem layout_prompt_ignores_brief
    (GEMINI_API_KEY : option string)
    (geminiApi : string -> FetchResult GeminiData)
    (systemPrompt fixedRequirements : string) :
  fullPrompt systemPrompt fixedRequirements
    {| requirements := "A vibrant summer party flyer" |}
  = fullPrompt systemPrompt fixedRequirements
      {| requirements := "A jazz night poster" |}
  /\ forall body1 body2 : LayoutRequest,
       generate_layout GEMINI_API_KEY geminiApi systemPrompt
         fixedRequirements body1 []
       = generate_layout GEMINI_API_KEY geminiApi systemPrompt
           fixedRequirements body2 [].
Proof. split; reflexivity. Qed.

(** ** The remove-bg handler *)

(** C6, as the code has it. Given the URL of a remote image, the handler
    downloads it, and then hands to the segmentation library the base64
    decoding of the URL text itself, whatever bytes were downloaded. *)
Theorem remove_bg_remote_url_input
    (b64decode : string -> list byte) (b64encode : list byte -> string)
    (removeBackground : Blob -> option (list byte))
    (downloaded : list byte) (contentType : option string) :
  segmented_inputs
    (snd (remove_bg b64decode b64encode removeBackground
            (serving downloaded contentType)
            (Some "https://example.com/cat.png") []))
  = [b64decode "https://example.com/cat.png"].
Proof.
  unfold remove_bg, try_catch, bind.
  cbn -[detectImageMimeFromBuffer String.eqb].
  match goal with
  | |- context [removeBackground ?b] => destruct (removeBackground b) as [out|]
  end; [destruct (Nat.eqb (length out) 0)|]; reflexivity.
Qed.

(** For a data URL and for a bare base64 text the library is handed the
    decoding of the base64 text. *)
Lemma remove_bg_data_url_input
    (b64decode : string -> list byte) (b64encode : list byte -> string)
    (removeBackground : Blob -> option (list byte))
    (remoteHost : string -> FetchResult RemoteImage) :
  segmented_inputs
    (snd (remove_bg b64decode b64encode removeBackground remoteHost
            (Some "data:image/jpeg;base64,/9j/4AAQSkZJRg==") []))
  = [b64decode "/9j/4AAQSkZJRg=="]
  /\ segmented_inputs
       (snd (remove_bg b64decode b64encode removeBackground remoteHost
               (Some "iVBORw0KGgo=") []))
     = [b64decode "iVBORw0KGgo="].
Proof.
  assert (Hm : match_data_url "data:image/jpeg;base64,/9j/4AAQSkZJRg=="
               = Some ("image/jpeg", "/9j/4AAQSkZJRg=="))
    by (vm_compute; reflexivity).
  assert (Hs : split_comma_1 "data:image/jpeg;base64,/9j/4AAQSkZJRg=="
               = Some "/9j/4AAQSkZJRg==")
    by (vm_compute; reflexivity).
  split; unfold remove_bg, remove_bg_classify, try_catch, bind.
  - change (startsWith "data:image/jpeg;base64,/9j/4AAQSkZJRg==" "data:")
      with true.
    change (startsWith "data:image/jpeg;base64,/9j/4AAQSkZJRg==" "data:image")
      with true.
    rewrite Hm, Hs. cbn -[detectImageMimeFromBuffer].
    match goal with
    | |- context [removeBackground ?b] =>
        destruct (removeBackground b) as [out|]
    end; [destruct (Nat.eqb (length out) 0)|]; reflexivity.
  - cbn -[detectImageMimeFromBuffer].
    match goal with
    | |- context [removeBackground ?b] =>
        destruct (removeBackground b) as [out|]
    end; [destruct (Nat.eqb (length out) 0)|]; reflexivity.
Qed.

(** The layout handler calls nothing but Gemini, at most once. *)
Lemma generate_layout_calls
    (GEMINI_API_KEY : option string)
    (geminiApi : string -> FetchResult GeminiData)
    (systemPrompt fixedRequirements : string) (body : LayoutRequest) :
  let log := snd (generate_layout GEMINI_API_KEY geminiApi systemPrompt
                    fixedRequirements body []) in
  log = []
  \/ log = [CallGemini (to_string GEMINI_API_KEY)
              (fullPrompt systemPrompt fixedRequirements body)].
Proof.
  unfold generate_layout, try_catch, callGemini.
  destruct (truthy GEMINI_API_KEY); cbn [negb]; [|left; reflexivity].
  right. unfold bind, call, await_fetch, await_json, ret, throw.
  repeat case_match; simplify_eq; reflexivity.
Qed.

(** ** The model at work *)

Example detect_png :
  detectImageMimeFromBuffer [x89; x50; x4e; x47; x0d; x0a; x1a; x0a]
  = "image/png".
Proof. reflexivity. Qed.

Example detect_jpeg :
  detectImageMimeFromBuffer [xff; xd8; xff; xe0] = "image/jpeg".
Proof. reflexivity. Qed.

Example detect_webp :
  detectImageMimeFromBuffer
    [x52; x49; x46; x46; x00; x00; x00; x00; x57; x45; x42; x50]
  = "image/webp".
Proof. reflexivity. Qed.

Example detect_unknown :
  detectImageMimeFromBuffer [x47; x49; x46] = "application/octet-stream"
  /\ detectImageMimeFromBuffer [] = "image/png".
Proof. split; reflexivity. Qed.

Example sizes_sent :
  List.map valid_dimension [10; 64; 70; 71; 72; 81; 300; 1024]
  = [64; 64; 64; 64; 80; 80; 304; 1024].
Proof. reflexivity. Qed.

Example data_url_groups :
  match_data_url "data:image/svg+xml;base64,PHN2Zz4="
  = Some ("image/svg+xml", "PHN2Zz4=")
  /\ match_data_url "data:text/plain;base64,aGk=" = None
  /\ split_comma_1 "data:image/png;base64,iVBORw0KGgo=" = Some "iVBORw0KGgo=".
Proof. repeat split; vm_compute; reflexivity. Qed.

End ServerFacts.

(** * Properties of the page script *)

Module ClientFacts.

Import Client.

Lemma alter_insert {A} (f : A -> A) (l : list A) (i : nat) (x : A) :
  l !! i = Some x -> alter f i l = <[i := f x]> l.
Proof.
  intros Hx. apply list_eq. intros j.
  destruct (decide (i = j)) as [<-|Hne].
  - rewrite list_lookup_alter_eq, Hx. cbn.
    rewrite list_lookup_insert_eq; [reflexivity|].
    apply lookup_lt_is_Some. eauto.
  - rewrite list_lookup_alter_ne, list_lookup_insert_ne by assumption.
    reflexivity.
Qed.

Lemma insert_middle {A} (done todo : list A) (x y : A) :
  <[length done := y]> (done ++ x :: todo) = done ++ y :: todo.
Proof.
  rewrite insert_app_r_alt by lia.
  replace (length done - length done)%nat with 0%nat by lia. reflexivity.
Qed.

Lemma trim_all_white_space (s : string) :
  all_white_space s = true -> trim s = "".
Proof.
  unfold trim. induction s as [|c s IH]; cbn; [reflexivity|].
  intros [Hc Hs]%andb_prop. rewrite Hc. apply IH, Hs.
Qed.

(** Runs the primitive actions of the page on an explicit page. *)
Ltac step_page :=
  unfold set_loadingText, alert, update_image, emit, set_innerHTML,
    try_finally, try_catch, bind, modify, get, ret, throw, await_fetch,
    await_json, with_images, with_poster, with_event, with_textContent,
    with_disabled, with_hidden;
  cbn -[render trim alter insert lookup Nat.ltb].

Section Handler.

Variable parseImages : string -> list Img.
Variable fetchLayout : LayoutRequest -> FetchResult LayoutJson.
Variable fetchImage : nat -> ImageRequest -> FetchResult ImageJson.

Local Abbreviation process_image := (Client.process_image fetchImage).
Local Abbreviation for_loop := (Client.for_loop fetchImage).
Local Abbreviation click := (Client.click parseImages fetchLayout fetchImage).
Local Abbreviation resolve := (Client.resolve fetchImage).
Local Abbreviation item_events := (Client.item_events fetchImage).
Local Abbreviation after_turn := (Client.after_turn fetchImage).
Local Abbreviation run_events := (Client.run_events fetchImage).

(** One turn never throws: whatever the reply, the turn ends with the
    element marked generated or marked failed. *)
Lemma process_image_run (total i : nat) (img : Img) (p : Page) :
  images p !! i = Some img ->
  process_image total i p = (Val tt, after_turn total i img p).
Proof.
  intros Hi.
  unfold Client.process_image, Client.after_turn, Client.resolve,
    Client.item_events, image_outcome.
  unfold bind at 1. unfold get. rewrite Hi.
  destruct p as [ui ih ims dis hid tc tr]. cbn in Hi.
  destruct (fetchImage i (image_request img)) as [|imageResponse];
    step_page;
    [|destruct (ok imageResponse); step_page;
      [destruct (json imageResponse) as [imageData|]; step_page|]];
    rewrite ?list_alter_alter_eq, (alter_insert _ _ _ _ Hi), <- ?app_assoc;
    reflexivity.
Qed.


(** The loop never throws. With [done] the elements already visited and
    [todo] those still to visit, it visits [todo] from left to right. *)
Lemma for_loop_run (total : nat) (todo : list Img) :
  forall (done : list Img) (p : Page),
    images p = done ++ todo ->
    exists tc,
      for_loop total (length todo) (length done) p =
      (Val tt,
       {| userInput := userInput p;
          innerHTML := innerHTML p;
          images :=
            done ++ imap (fun j => resolve (length done + j)) todo;
          disabled := disabled p;
          hidden := hidden p;
          textContent := tc;
          trace :=
            trace p ++
            concat (imap (fun j => item_events total (length done + j))
                      todo) |}).
Proof.
  induction todo as [|x todo IH]; intros done p Himgs.
  - exists (textContent p). destruct p; cbn in *. subst.
    rewrite !app_nil_r. reflexivity.
  - assert (Hx : images p !! length done = Some x)
      by (rewrite Himgs; apply list_lookup_middle; reflexivity).
    cbn [length Client.for_loop]. unfold bind.
    rewrite (process_image_run total _ x p Hx).
    destruct (IH (done ++ [resolve (length done) x])
                (after_turn total (length done) x p)) as [tc Hrun].
    { cbn. rewrite Himgs, insert_middle, <- app_assoc. reflexivity. }
    exists tc.
    replace (length (done ++ [resolve (length done) x]))
      with (S (length done)) in Hrun by (rewrite length_app; cbn; lia).
    rewrite Hrun. cbn [userInput innerHTML disabled hidden trace
                        Client.after_turn].
    rewrite !imap_cons, Nat.add_0_r, <- !app_assoc. cbn [concat app].
    assert (Hr : imap (fun j => resolve (S (length done) + j)) todo
                 = imap ((fun j => resolve (length done + j)) ∘ S) todo).
    { apply imap_ext. intros j y _. unfold compose.
      replace (length done + S j)%nat with (S (length done) + j)%nat by lia.
      reflexivity. }
    assert (He : imap (fun j => item_events total (S (length done) + j))
                   todo
                 = imap ((fun j => item_events total (length done + j)) ∘ S)
                     todo).
    { apply imap_ext. intros j y _. unfold compose.
      replace (length done + S j)%nat with (S (length done) + j)%nat by lia.
      reflexivity. }
    rewrite Hr, He. reflexivity.
Qed.

(** A run whose layout request succeeds: the handler returns, every
    placeholder of the markup has had its turn, in order. *)
Lemma click_resolves (p : Page) (h : string) :
  trim (userInput p) <> "" ->
  layout_outcome (fetchLayout {| requirements := trim (userInput p) |})
  = inr h ->
  exists tc,
    click p =
    (Val tt,
     {| userInput := userInput p;
        innerHTML := h;
        images := imap resolve (parseImages h);
        disabled := false;
        hidden := true;
        textContent := tc;
        trace :=
          trace p ++
          run_events {| requirements := trim (userInput p) |}
            (parseImages h) |}).
Proof.
  intros Hreq Hlayout. apply String.eqb_neq in Hreq.
  unfold Client.click. unfold bind at 1. unfold get. rewrite Hreq.
  unfold layout_outcome in Hlayout.
  destruct (fetchLayout _) as [|layoutResponse]; [discriminate|].
  step_page.
  destruct (ok layoutResponse); [|discriminate]. cbn in Hlayout. step_page.
  destruct (json layoutResponse) as [layoutData|]; [|discriminate].
  injection Hlayout as Hh. step_page. rewrite Hh.
  unfold Client.run_events.
  destruct (Nat.ltb 0 (length (parseImages h))) eqn:Hlt.
  - cbn beta iota.
    match goal with
    | |- context [for_loop _ _ 0%nat ?q] =>
        destruct (for_loop_run (length (parseImages h)) (parseImages h)
                    [] q eq_refl) as [tc Hrun]
    end.
    exists tc. cbn [length app] in Hrun.
    rewrite Hrun. cbn -[render trim]. rewrite <- !app_assoc. reflexivity.
  - apply Nat.ltb_ge in Hlt.
    assert (Hnil : parseImages h = []) by (apply length_zero_iff_nil; lia).
    eexists. rewrite Hnil. cbn. rewrite <- !app_assoc. reflexivity.
Qed.

(** A run whose layout request fails: the handler reports once and
    touches no placeholder. *)
Lemma click_aborts (p : Page) (e : JsError) :
  trim (userInput p) <> "" ->
  layout_outcome (fetchLayout {| requirements := trim (userInput p) |})
  = inl e ->
  click p =
  (Val tt,
   {| userInput := userInput p;
      innerHTML := "";
      images := parseImages "";
      disabled := false;
      hidden := true;
      textContent := render GeneratingLayout;
      trace :=
        trace p ++
        [LoadingText GeneratingLayout;
         FetchLayout {| requirements := trim (userInput p) |};
         ConsoleError e;
         Alert "An error occurred while generating the flyer. Please try again."]
   |}).
Proof.
  intros Hreq Hlayout. apply String.eqb_neq in Hreq.
  unfold Client.click. unfold bind at 1. unfold get. rewrite Hreq.
  unfold layout_outcome in Hlayout.
  destruct (fetchLayout _) as [|layoutResponse]; step_page.
  - injection Hlayout as <-. rewrite <- !app_assoc. reflexivity.
  - destruct (ok layoutResponse); cbn in Hlayout; step_page.
    + destruct (json layoutResponse) as [layoutData|]; [discriminate|].
      injection Hlayout as <-. step_page. rewrite <- !app_assoc.
      reflexivity.
    + injection Hlayout as <-. rewrite <- !app_assoc. reflexivity.
Qed.

(** A run on a blank brief: one alert, nothing else. *)
Lemma click_blank (p : Page) :
  trim (userInput p) = "" ->
  click p =
  (Val tt, with_event (Alert "Please enter your requirements first.") p).
Proof.
  intros Hreq. unfold Client.click. unfold bind at 1. unfold get.
  rewrite Hreq. reflexivity.
Qed.

End Handler.

(** ** Elements after their turn *)

Section Turn.

Variable fetchImage : nat -> ImageRequest -> FetchResult ImageJson.

Local Abbreviation resolve := (Client.resolve fetchImage).
Local Abbreviation item_events := (Client.item_events fetchImage).

Lemma resolve_terminal (i : nat) (img : Img) :
  resolutionState (resolve i img) <> Pending.
Proof.
  unfold Client.resolve, resolutionState, marked_generated, marked_failed.
  destruct (image_outcome _); cbn; [|discriminate].
  destruct (data_x_image_generated img) as [v|];
    [destruct (String.eqb v "1")|]; discriminate.
Qed.

Lemma resolve_failed (i : nat) (img : Img) (e : JsError) :
  resolutionState img = Pending ->
  image_outcome (fetchImage i (image_request img)) = inl e ->
  resolutionState (resolve i img) = Failed
  /\ alt (resolve i img) = FAILED_ALT
  /\ src (resolve i img) = src img.
Proof.
  unfold Client.resolve, resolutionState, marked_failed.
  intros Hpending ->. cbn.
  unfold marked_generated in *. cbn.
  destruct (data_x_image_generated img) as [v|];
    [destruct (String.eqb v "1"); [discriminate|]|]; auto.
Qed.

Lemma resolve_succeeded (i : nat) (img : Img) (imageUrl : string) :
  image_outcome (fetchImage i (image_request img)) = inr imageUrl ->
  resolutionState (resolve i img) = Resolved
  /\ src (resolve i img) = imageUrl
  /\ alt (resolve i img) = alt img.
Proof.
  unfold Client.resolve. intros ->. auto.
Qed.

Lemma item_events_shape (total i : nat) (img : Img) :
  exists c1 c2,
    item_events total i img =
    [ConsoleLog i (image_request img);
     LoadingText (GeneratingImage (i + 1) total);
     FetchImage i (image_request img); c1; c2]
    /\ (c2 = SetGenerated i \/ c2 = SetAlt i FAILED_ALT).
Proof.
  unfold Client.item_events.
  destruct (image_outcome _); do 2 eexists; split; eauto.
Qed.

Lemma item_events_start (total i : nat) (img : Img) :
  List.filter is_start (item_events total i img)
  = [LoadingText (GeneratingImage (i + 1) total)].
Proof.
  unfold Client.item_events. destruct (image_outcome _); reflexivity.
Qed.

Lemma item_events_index (total i : nat) (img : Img) :
  omap event_index (item_events total i img) = replicate 5 i.
Proof.
  unfold Client.item_events.
  destruct (image_outcome _); cbn;
    replace (i + 1 - 1)%nat with i by lia; reflexivity.
Qed.

Lemma item_events_no_alert (total i : nat) (img : Img) :
  List.filter is_alert (item_events total i img) = [].
Proof.
  unfold Client.item_events. destruct (image_outcome _); reflexivity.
Qed.

End Turn.

(** ** Lists of turns *)

Lemma filter_concat_imap {A B} (P : B -> bool) (l : list A) :
  forall (f : nat -> A -> list B) (g : nat -> A -> list B),
    (forall i x, List.filter P (f i x) = g i x) ->
    List.filter P (concat (imap f l)) = concat (imap g l).
Proof.
  induction l as [|x l IH]; intros f g Hfg; [reflexivity|].
  rewrite !imap_cons. cbn [concat]. rewrite List.filter_app, Hfg.
  f_equal. apply IH. intros i y. apply Hfg.
Qed.

Lemma omap_concat_imap {A B C} (h : B -> option C) (l : list A) :
  forall (f : nat -> A -> list B) (g : nat -> A -> list C),
    (forall i x, omap h (f i x) = g i x) ->
    omap h (concat (imap f l)) = concat (imap g l).
Proof.
  induction l as [|x l IH]; intros f g Hfg; [reflexivity|].
  rewrite !imap_cons. cbn [concat]. rewrite omap_app, Hfg.
  f_equal. apply IH. intros i y. apply Hfg.
Qed.

Lemma concat_imap_singleton {A B} (l : list A) :
  forall (g : nat -> A -> B),
    concat (imap (fun i x => [g i x]) l) = imap g l.
Proof.
  induction l as [|x l IH]; intros g; [reflexivity|].
  rewrite !imap_cons. cbn [concat app]. f_equal. apply (IH (g ∘ S)).
Qed.

Lemma concat_imap_nil {A B} (l : list A) :
  forall (f : nat -> A -> list B),
    (forall i x, f i x = []) -> concat (imap f l) = [].
Proof.
  induction l as [|x l IH]; intros f Hf; [reflexivity|].
  rewrite imap_cons. cbn [concat]. rewrite Hf. apply IH.
  intros i y. apply Hf.
Qed.

Lemma counters_total (l : list Img) :
  Forall (fun img => resolutionState img <> Pending) l ->
  (length (List.filter (is_state Resolved) l)
   + length (List.filter (is_state Failed) l) = length l)%nat.
Proof.
  induction 1 as [|img l Himg _ IH]; [reflexivity|].
  assert (Hst : is_state Resolved img = true /\ is_state Failed img = false
                \/ is_state Resolved img = false
                   /\ is_state Failed img = true).
  { unfold is_state. destruct (resolutionState img); [contradiction| |]; auto. }
  cbn [List.filter].
  destruct Hst as [[-> ->]|[-> ->]]; cbn [length]; lia.
Qed.

Lemma events_since_app (p p' : Page) (evs : list Event) :
  trace p' = trace p ++ evs -> events_since p p' = evs.
Proof.
  unfold events_since. intros ->. apply drop_app_length.
Qed.

Lemma events_since_run (p : Page) ui ih ims dis hid tc (evs : list Event) :
  events_since p
    {| userInput := ui; innerHTML := ih; images := ims; disabled := dis;
       hidden := hid; textContent := tc; trace := trace p ++ evs |}
  = evs.
Proof. apply events_since_app. reflexivity. Qed.

(** ** Runs of the click handler *)

Section Runs.

Variable parseImages : string -> list Img.
Variable fetchLayout : LayoutRequest -> FetchResult LayoutJson.
Variable fetchImage : nat -> ImageRequest -> FetchResult ImageJson.

Local Abbreviation click := (Client.click parseImages fetchLayout fetchImage).
Local Abbreviation resolve := (Client.resolve fetchImage).
Local Abbreviation item_events := (Client.item_events fetchImage).
Local Abbreviation run_events := (Client.run_events fetchImage).

Lemma run_events_fetch (body : LayoutRequest) (imgs : list Img)
    (j : nat) (img : Img) :
  imgs !! j = Some img ->
  In (FetchImage j (image_request img)) (run_events body imgs).
Proof.
  intros Hj. unfold Client.run_events.
  apply in_or_app. right. apply in_or_app. right.
  apply in_concat. exists (item_events (length imgs) j img). split.
  - apply list_elem_of_In, (list_elem_of_lookup_2 _ j).
    rewrite list_lookup_imap, Hj. reflexivity.
  - unfold Client.item_events. cbn. auto.
Qed.

Lemma run_events_alerts (body : LayoutRequest) (imgs : list Img) :
  List.filter is_alert (run_events body imgs) = [].
Proof.
  unfold Client.run_events. rewrite !List.filter_app.
  rewrite (filter_concat_imap _ _ _ (fun _ _ => []))
    by (intros; apply item_events_no_alert).
  rewrite concat_imap_nil by reflexivity.
  destruct (Nat.ltb 0 (length imgs)); reflexivity.
Qed.

Lemma run_events_starts (body : LayoutRequest) (imgs : list Img) :
  List.filter is_start (run_events body imgs)
  = imap (fun i _ => LoadingText (GeneratingImage (i + 1) (length imgs)))
      imgs.
Proof.
  unfold Client.run_events. rewrite !List.filter_app.
  rewrite (filter_concat_imap _ _ _
             (fun i _ => [LoadingText
                            (GeneratingImage (i + 1) (length imgs))]))
    by (intros; apply item_events_start).
  rewrite concat_imap_singleton.
  destruct (Nat.ltb 0 (length imgs)); reflexivity.
Qed.

Lemma run_events_index (body : LayoutRequest) (imgs : list Img) :
  omap event_index (run_events body imgs)
  = concat (imap (fun i _ => replicate 5 i) imgs).
Proof.
  unfold Client.run_events. rewrite !omap_app.
  rewrite (omap_concat_imap _ _ _ (fun i _ => replicate 5 i))
    by (intros; apply item_events_index).
  destruct (Nat.ltb 0 (length imgs)); reflexivity.
Qed.

End Runs.

(** C1. Failure isolation. In a run whose layout was obtained, a
    placeholder whose image request fails ends [Failed], carrying the
    failure text and its old [src]; the handler still returns normally,
    without an alert, and every later placeholder of the document has its
    image request made and ends in a terminal state. *)
Theorem failure_isolation
    (parseImages : string -> list Img)
    (fetchLayout : LayoutRequest -> FetchResult LayoutJson)
    (fetchImage : nat -> ImageRequest -> FetchResult ImageJson)
    (p : Page) (h : string) (i : nat) (img : Img) (e : JsError) :
  trim (userInput p) <> "" ->
  layout_outcome (fetchLayout {| requirements := trim (userInput p) |})
  = inr h ->
  parseImages h !! i = Some img ->
  resolutionState img = Pending ->
  image_outcome (fetchImage i (image_request img)) = inl e ->
  exists p',
    click parseImages fetchLayout fetchImage p = (Val tt, p')
    /\ length (images p') = length (parseImages h)
    /\ (exists img',
          images p' !! i = Some img'
          /\ resolutionState img' = Failed
          /\ alt img' = FAILED_ALT
          /\ src img' = src img)
    /\ (forall (j : nat) (img_j : Img),
          (i < j)%nat ->
          parseImages h !! j = Some img_j ->
          In (FetchImage j (image_request img_j)) (events_since p p')
          /\ exists img_j',
               images p' !! j = Some img_j'
               /\ resolutionState img_j' <> Pending)
    /\ List.filter is_alert (events_since p p') = [].
Proof.
  intros Hreq Hlayout Hi Hpending Hfail.
  destruct (click_resolves parseImages fetchLayout fetchImage p h Hreq
              Hlayout) as [tc Hrun].
  eexists. split; [exact Hrun|].
  rewrite events_since_run. cbn [images].
  split; [apply length_imap|]. split; [|split].
  - exists (resolve fetchImage i img). split.
    + rewrite list_lookup_imap, Hi. reflexivity.
    + apply (resolve_failed fetchImage i img e Hpending Hfail).
  - intros j img_j _ Hj. split.
    + apply run_events_fetch, Hj.
    + exists (resolve fetchImage j img_j). split.
      * rewrite list_lookup_imap, Hj. reflexivity.
      * apply resolve_terminal.
  - apply run_events_alerts.
Qed.

Lemma failure_isolation_witness :
  exists p',
    Client.click Sample.parse Sample.layout_ok Sample.image_replies
      (Sample.page " beach party flyer ") = (Val tt, p')
    /\ (exists img', images p' !! 1%nat = Some img'
                     /\ resolutionState img' = Failed)
    /\ (exists img', images p' !! 2%nat = Some img'
                     /\ resolutionState img' <> Pending).
Proof.
  destruct (failure_isolation Sample.parse Sample.layout_ok
              Sample.image_replies (Sample.page " beach party flyer ")
              Sample.poster 1 Sample.palm (Error "Failed to generate image"))
    as (p' & Hrun & _ & (img' & Hi & Hst & _) & Hlater & _).
  - vm_compute. discriminate.
  - reflexivity.
  - reflexivity.
  - reflexivity.
  - reflexivity.
  - exists p'. split; [exact Hrun|]. split.
    + exists img'. auto.
    + destruct (Hlater 2%nat Sample.wave) as (_ & img2 & H2 & Hst2);
        [lia|reflexivity|].
      exists img2. auto.
Defined.

(** C3. In a run whose layout has [N] placeholders the start-of-item
    progress texts are exactly [Generating image 1 of N...] up to
    [Generating image N of N...], in this order, each one written just
    before the image request of its placeholder; when the handler returns,
    the number of resolved placeholders plus the number of failed ones is
    [N]. *)
Theorem progress_and_counters
    (parseImages : string -> list Img)
    (fetchLayout : LayoutRequest -> FetchResult LayoutJson)
    (fetchImage : nat -> ImageRequest -> FetchResult ImageJson)
    (p : Page) (h : string) :
  trim (userInput p) <> "" ->
  layout_outcome (fetchLayout {| requirements := trim (userInput p) |})
  = inr h ->
  let N := length (parseImages h) in
  exists p',
    click parseImages fetchLayout fetchImage p = (Val tt, p')
    /\ List.filter is_start (events_since p p')
       = imap (fun i _ => LoadingText (GeneratingImage (i + 1) N))
           (parseImages h)
    /\ length (List.filter is_start (events_since p p')) = N
    /\ (exists pre,
          events_since p p'
          = pre ++ concat (imap (item_events fetchImage N) (parseImages h))
          /\ List.filter is_start pre = []
          /\ forall (i : nat) (img : Img),
               exists c1 c2,
                 item_events fetchImage N i img
                 = [ConsoleLog i (image_request img);
                    LoadingText (GeneratingImage (i + 1) N);
                    FetchImage i (image_request img); c1; c2])
    /\ (completed p' + failed p' = N)%nat.
Proof.
  intros Hreq Hlayout N.
  destruct (click_resolves parseImages fetchLayout fetchImage p h Hreq
              Hlayout) as [tc Hrun].
  eexists. split; [exact Hrun|].
  rewrite events_since_run.
  rewrite run_events_starts. split; [reflexivity|].
  split; [apply length_imap|]. split.
  - eexists. unfold Client.run_events. rewrite app_assoc.
    split; [reflexivity|]. split.
    + destruct (Nat.ltb 0 (length (parseImages h))); reflexivity.
    + intros i img.
      destruct (item_events_shape fetchImage N i img) as (c1 & c2 & Hs & _).
      eauto.
  - unfold completed, failed. cbn [images].
    rewrite counters_total; [apply length_imap|].
    apply Forall_forall. intros x Hx.
    apply list_elem_of_lookup_1 in Hx. destruct Hx as [j Hj].
    rewrite list_lookup_imap in Hj.
    destruct (parseImages h !! j) as [y|]; [|discriminate].
    injection Hj as <-. apply resolve_terminal.
Qed.

Lemma progress_and_counters_witness :
  exists p',
    Client.click Sample.parse Sample.layout_ok Sample.image_replies
      (Sample.page " beach party flyer ") = (Val tt, p')
    /\ List.filter is_start (events_since (Sample.page " beach party flyer ") p')
       = [LoadingText (GeneratingImage 1 3);
          LoadingText (GeneratingImage 2 3);
          LoadingText (GeneratingImage 3 3)]
    /\ (completed p' + failed p' = 3)%nat.
Proof.
  destruct (progress_and_counters Sample.parse Sample.layout_ok
              Sample.image_replies (Sample.page " beach party flyer ")
              Sample.poster)
    as (p' & Hrun & Hstarts & _ & _ & Hcount).
  - vm_compute. discriminate.
  - reflexivity.
  - exists p'. auto.
Defined.

(** The loop after its first turns: with [todo] visited and [rest] still
    to visit, the elements of [rest] are as they were. *)
Lemma for_loop_prefix
    (fetchImage : nat -> ImageRequest -> FetchResult ImageJson)
    (total : nat) (todo : list Img) :
  forall (done rest : list Img) (p : Page),
    images p = done ++ todo ++ rest ->
    exists tc,
      for_loop fetchImage total (length todo) (length done) p =
      (Val tt,
       {| userInput := userInput p;
          innerHTML := innerHTML p;
          images :=
            done ++ imap (fun j => resolve fetchImage (length done + j)) todo
            ++ rest;
          disabled := disabled p;
          hidden := hidden p;
          textContent := tc;
          trace :=
            trace p ++
            concat (imap (fun j => item_events fetchImage total
                                     (length done + j)) todo) |}).
Proof.
  induction todo as [|x todo IH]; intros done rest p Himgs.
  - exists (textContent p). destruct p; cbn in *. subst.
    rewrite !app_nil_r. reflexivity.
  - assert (Hx : images p !! length done = Some x)
      by (rewrite Himgs; apply list_lookup_middle; reflexivity).
    cbn [length Client.for_loop]. unfold bind.
    rewrite (process_image_run fetchImage total _ x p Hx).
    destruct (IH (done ++ [resolve fetchImage (length done) x]) rest
                (after_turn fetchImage total (length done) x p))
      as [tc Hrun].
    { cbn. rewrite Himgs. cbn [app]. rewrite insert_middle, <- app_assoc.
      reflexivity. }
    exists tc.
    replace (length (done ++ [resolve fetchImage (length done) x]))
      with (S (length done)) in Hrun by (rewrite length_app; cbn; lia).
    rewrite Hrun. cbn [userInput innerHTML disabled hidden trace
                        Client.after_turn].
    rewrite !imap_cons, Nat.add_0_r, <- !app_assoc. cbn [concat app].
    assert (Hr : imap (fun j => resolve fetchImage (S (length done) + j)) todo
                 = imap ((fun j => resolve fetchImage (length done + j)) ∘ S)
                     todo).
    { apply imap_ext. intros j y _. unfold compose.
      replace (length done + S j)%nat with (S (length done) + j)%nat by lia.
      reflexivity. }
    assert (He : imap (fun j => item_events fetchImage total
                                  (S (length done) + j)) todo
                 = imap ((fun j => item_events fetchImage total
                                     (length done + j)) ∘ S) todo).
    { apply imap_ext. intros j y _. unfold compose.
      replace (length done + S j)%nat with (S (length done) + j)%nat by lia.
      reflexivity. }
    rewrite Hr, He. reflexivity.
Qed.

(** C9. Sequential order. The events of a run are those of the layout
    step followed by the events of placeholder 0, then those of
    placeholder 1, and so on in document order; the five events of a
    placeholder start with its progress text and its image request and end
    with the write that completes it ([SetGenerated] or [SetAlt]). The
    placeholders themselves are resolved in that order: when the handler
    returns every element is the resolved form of the parsed one (its
    [src] and generated mark written, or its failure text), and after the
    first [k] turns of the loop exactly the first [k] elements are
    resolved, the others are as parsed, and exactly the events of the
    first [k] placeholders have happened: a placeholder is completed
    before the next one is begun. *)
Theorem sequential_order
    (parseImages : string -> list Img)
    (fetchLayout : LayoutRequest -> FetchResult LayoutJson)
    (fetchImage : nat -> ImageRequest -> FetchResult ImageJson)
    (p : Page) (h : string) :
  trim (userInput p) <> "" ->
  layout_outcome (fetchLayout {| requirements := trim (userInput p) |})
  = inr h ->
  let N := length (parseImages h) in
  exists p',
    click parseImages fetchLayout fetchImage p = (Val tt, p')
    /\ events_since p p'
       = [LoadingText GeneratingLayout;
          FetchLayout {| requirements := trim (userInput p) |}]
         ++ (if Nat.ltb 0 N then [LoadingText (GeneratingImages N)] else [])
         ++ concat (imap (item_events fetchImage N) (parseImages h))
    /\ omap event_index (events_since p p')
       = concat (imap (fun i _ => replicate 5 i) (parseImages h))
    /\ (forall (i : nat) (img : Img),
          exists c1 c2,
            item_events fetchImage N i img
            = [ConsoleLog i (image_request img);
               LoadingText (GeneratingImage (i + 1) N);
               FetchImage i (image_request img); c1; c2]
            /\ (c2 = SetGenerated i \/ c2 = SetAlt i FAILED_ALT))
    /\ images p' = imap (resolve fetchImage) (parseImages h)
    /\ (forall (i : nat) (img : Img),
          parseImages h !! i = Some img ->
          exists img',
            images p' !! i = Some img'
            /\ resolutionState img' <> Pending
            /\ match image_outcome (fetchImage i (image_request img)) with
               | inr imageUrl =>
                   src img' = imageUrl
                   /\ data_x_image_generated img' = Some "1"
               | inl _ => alt img' = FAILED_ALT
               end)
    /\ (forall (k : nat) (q : Page),
          (k <= N)%nat ->
          images q = parseImages h ->
          exists tc,
            for_loop fetchImage N k 0 q
            = (Val tt,
               {| userInput := userInput q;
                  innerHTML := innerHTML q;
                  images := imap (resolve fetchImage) (take k (parseImages h))
                            ++ drop k (parseImages h);
                  disabled := disabled q;
                  hidden := hidden q;
                  textContent := tc;
                  trace := trace q
                           ++ concat (imap (item_events fetchImage N)
                                        (take k (parseImages h))) |})).
Proof.
  intros Hreq Hlayout N.
  destruct (click_resolves parseImages fetchLayout fetchImage p h Hreq
              Hlayout) as [tc Hrun].
  eexists. split; [exact Hrun|].
  rewrite events_since_run.
  split; [reflexivity|]. split; [apply run_events_index|].
  split; [intros i img; apply item_events_shape|].
  cbn [images]. split; [reflexivity|]. split.
  - intros i img Hi. exists (resolve fetchImage i img).
    split; [rewrite list_lookup_imap, Hi; reflexivity|].
    split; [apply resolve_terminal|].
    unfold Client.resolve.
    destruct (image_outcome (fetchImage i (image_request img)));
      [reflexivity|split; reflexivity].
  - intros k q Hk Hq.
    destruct (for_loop_prefix fetchImage N (take k (parseImages h)) []
                (drop k (parseImages h)) q) as [tc' Hloop].
    { cbn [app]. rewrite take_drop. exact Hq. }
    exists tc'.
    rewrite length_take in Hloop.
    replace (Nat.min k (length (parseImages h))) with k in Hloop
      by (subst N; lia).
    exact Hloop.
Qed.

Lemma sequential_order_witness :
  exists p',
    Client.click Sample.parse Sample.layout_ok Sample.image_replies
      (Sample.page " beach party flyer ") = (Val tt, p')
    /\ omap event_index (events_since (Sample.page " beach party flyer ") p')
       = [0; 0; 0; 0; 0; 1; 1; 1; 1; 1; 2; 2; 2; 2; 2]%nat
    /\ List.map resolutionState (images p') = [Resolved; Failed; Resolved].
Proof.
  destruct (sequential_order Sample.parse Sample.layout_ok
              Sample.image_replies (Sample.page " beach party flyer ")
              Sample.poster)
    as (p' & Hrun & _ & Hindex & _ & Himgs & _).
  - vm_compute. discriminate.
  - reflexivity.
  - exists p'. split; [exact Hrun|]. split; [exact Hindex|].
    rewrite Himgs. reflexivity.
Defined.

(** ** The model at work *)

(** Three placeholders, the second image request answered 500: two
    resolved, one failed, all three requested. *)
Example three_placeholders_second_fails :
  let (r, p') := Client.click Sample.parse Sample.layout_ok
                   Sample.image_replies (Sample.page "beach party flyer") in
  r = Val tt
  /\ List.map resolutionState (images p') = [Resolved; Failed; Resolved]
  /\ completed p' = 2%nat /\ failed p' = 1%nat
  /\ length (List.filter is_fetch_image (trace p')) = 3%nat
  /\ disabled p' = false /\ hidden p' = true.
Proof. vm_compute. repeat split. Qed.

(** A layout without placeholders: nothing to resolve, nothing requested
    but the layout. *)
Example no_placeholders :
  let (r, p') :=
    Client.click Sample.parse
      (fun _ => Fulfilled {| status := 200; text := "";
                             json := Some {| html := Some "<div></div>" |} |})
      Sample.image_replies (Sample.page "beach party flyer") in
  r = Val tt
  /\ completed p' = 0%nat /\ failed p' = 0%nat
  /\ trace p'
     = [LoadingText GeneratingLayout;
        FetchLayout {| requirements := "beach party flyer" |}].
Proof. vm_compute. repeat split. Qed.

End ClientFacts.

(** * Properties of page and server together *)

Module SystemFacts.

Import Server Client System ServerFacts ClientFacts.

Section World.

Variable GEMINI_API_KEY : option string.
Variable TOGETHER_API_KEY : option string.
Variable b64decode : string -> list byte.
Variable b64encode : list byte -> string.
Variable systemPrompt : string.
Variable fixedRequirements : string.
Variable parseImages : string -> list Img.
Variable geminiApi : string -> FetchResult GeminiData.
Variable togetherApi : nat -> TogetherRequest -> FetchResult TogetherData.
Variable removeBackground : nat -> Blob -> option (list byte).
Variable online_layout : bool.
Variable online_image : nat -> bool.

Local Abbreviation fetchLayout :=
  (System.fetchLayout GEMINI_API_KEY systemPrompt fixedRequirements
     geminiApi online_layout).
Local Abbreviation fetchImage :=
  (System.fetchImage TOGETHER_API_KEY b64decode b64encode togetherApi
     removeBackground online_image).
Local Abbreviation image_exchange :=
  (System.image_exchange TOGETHER_API_KEY b64decode b64encode togetherApi
     removeBackground online_image).
Local Abbreviation layout_exchange :=
  (System.layout_exchange GEMINI_API_KEY systemPrompt fixedRequirements
     geminiApi online_layout).
Local Abbreviation click :=
  (System.click GEMINI_API_KEY TOGETHER_API_KEY b64decode b64encode
     systemPrompt fixedRequirements parseImages geminiApi togetherApi
     removeBackground online_layout online_image).
Local Abbreviation external_calls :=
  (System.external_calls GEMINI_API_KEY TOGETHER_API_KEY b64decode
     b64encode systemPrompt fixedRequirements geminiApi togetherApi
     removeBackground online_layout online_image).

(** The layout request sets off calls to Gemini only. *)
Lemma layout_exchange_calls (body : LayoutRequest) :
  forallb is_gemini_call (snd (layout_exchange body)) = true.
Proof.
  unfold System.layout_exchange, serve.
  destruct online_layout; [|reflexivity].
  pose proof (generate_layout_calls GEMINI_API_KEY geminiApi systemPrompt
                fixedRequirements body) as Hlog.
  cbv zeta in Hlog.
  destruct (generate_layout _ _ _ _ _ _) as [[reply|err] log];
    cbn [snd] in *; destruct Hlog as [->| ->]; reflexivity.
Qed.

(** A transparent placeholder whose image was generated and whose
    segmentation failed: the server still answers 200, with the
    generated image under a PNG label. *)
Lemma image_exchange_degraded (i : nat) (img : Img) (b64 : string) :
  transparent img = Some "true" ->
  online_image i = true ->
  truthy TOGETHER_API_KEY = true ->
  generated_payload (togetherApi i (raster_request img)) = Some b64 ->
  removeBackground i (blob_of b64decode b64) = None ->
  image_exchange i (image_request img)
  = (Fulfilled {| status := 200;
                  text := "data:image/png;base64," +:+ b64;
                  json := Some {| url := Some ("data:image/png;base64,"
                                               +:+ b64) |} |},
     [CallTogether (to_string TOGETHER_API_KEY) (raster_request img);
      CallRemoveBackground (blob_of b64decode b64)]).
Proof.
  intros Htr Honline Hkey Hpay Hseg.
  unfold System.image_exchange, serve. rewrite Honline.
  unfold generate_image, try_catch, bind.
  assert (Ht : isTransparent (image_request img) = true)
    by (unfold image_request; rewrite Htr; reflexivity).
  rewrite Ht.
  rewrite (generateImage_success TOGETHER_API_KEY b64decode b64encode
             (togetherApi i) (removeBackground i) _ _ _ true [] b64 Hkey
             Hpay).
  cbv zeta. rewrite removeBackgroundFun_run, Hseg. reflexivity.
Qed.

(** A placeholder whose image the generator did not deliver: the server
    answers 500 and the page takes the request as failed. *)
Lemma image_exchange_failed (i : nat) (img : Img) :
  online_image i = true ->
  truthy TOGETHER_API_KEY = true ->
  generated_payload (togetherApi i (raster_request img)) = None ->
  image_outcome (fetchImage i (image_request img))
  = inl (Error "Failed to generate image").
Proof.
  intros Honline Hkey Hpay.
  unfold System.fetchImage, System.image_exchange, serve. rewrite Honline.
  unfold generate_image, try_catch, bind.
  destruct (generateImage_failure TOGETHER_API_KEY b64decode b64encode
              (togetherApi i) (removeBackground i) (prompt (image_request img))
              (width (image_request img)) (height (image_request img))
              (isTransparent (image_request img)) [] Hkey Hpay) as [e ->].
  reflexivity.
Qed.

(** C2. Graceful degradation. A placeholder with [transparent="true"]
    whose image is generated and whose background removal fails ends
    [Resolved]; its [src] is a data URL of the generated base64 text,
    the image as it was before segmentation; the segmentation was
    attempted on the bytes of that image. *)
Theorem segmentation_failure_degrades
    (p : Page) (h : string) (i : nat) (img : Img) (b64 : string) :
  trim (userInput p) <> "" ->
  layout_outcome (fetchLayout {| requirements := trim (userInput p) |})
  = inr h ->
  parseImages h !! i = Some img ->
  transparent img = Some "true" ->
  online_image i = true ->
  truthy TOGETHER_API_KEY = true ->
  generated_payload (togetherApi i (raster_request img)) = Some b64 ->
  removeBackground i (blob_of b64decode b64) = None ->
  exists p' img',
    click p = (Val tt, p')
    /\ images p' !! i = Some img'
    /\ resolutionState img' = Resolved
    /\ src img' = "data:image/png;base64," +:+ b64
    /\ In (CallRemoveBackground (blob_of b64decode b64))
          (external_calls (events_since p p'))
    /\ blob_bytes (blob_of b64decode b64) = b64decode b64.
Proof.
  intros Hreq Hlayout Hi Htr Honline Hkey Hpay Hseg.
  pose proof (image_exchange_degraded i img b64 Htr Honline Hkey Hpay Hseg)
    as Hex.
  assert (Hout : image_outcome (fetchImage i (image_request img))
                 = inr ("data:image/png;base64," +:+ b64))
    by (unfold System.fetchImage; rewrite Hex; reflexivity).
  destruct (click_resolves parseImages fetchLayout fetchImage p h Hreq
              Hlayout) as [tc Hrun].
  destruct (resolve_succeeded fetchImage i img _ Hout) as (Hst & Hsrc & _).
  eexists. exists (resolve fetchImage i img).
  split; [exact Hrun|]. rewrite events_since_run. cbn [images].
  split; [rewrite list_lookup_imap, Hi; reflexivity|].
  split; [exact Hst|]. split; [exact Hsrc|]. split; [|reflexivity].
  unfold System.external_calls. apply in_concat.
  exists (System.server_calls GEMINI_API_KEY TOGETHER_API_KEY b64decode
            b64encode systemPrompt fixedRequirements geminiApi togetherApi
            removeBackground online_layout online_image
            (FetchImage i (image_request img))).
  split.
  - apply in_map, run_events_fetch, Hi.
  - cbn [System.server_calls]. rewrite Hex. cbn. auto.
Qed.

(** C7. A run whose layout request fails ends with exactly one alert;
    no image request is made, the calls that reach the outside are calls
    to the language model only, and the poster holds no resolved
    placeholder. *)
Theorem layout_failure_aborts (p : Page) (e : JsError) :
  trim (userInput p) <> "" ->
  layout_outcome (fetchLayout {| requirements := trim (userInput p) |})
  = inl e ->
  exists p',
    click p = (Val tt, p')
    /\ List.filter is_alert (events_since p p')
       = [Alert "An error occurred while generating the flyer. Please try again."]
    /\ List.filter is_fetch_image (events_since p p') = []
    /\ forallb is_gemini_call (external_calls (events_since p p')) = true
    /\ images p' = parseImages "".
Proof.
  intros Hreq Hlayout.
  eexists. split.
  - apply (click_aborts parseImages fetchLayout fetchImage p e Hreq Hlayout).
  - rewrite events_since_run. repeat split.
    unfold System.external_calls. cbn [List.map System.server_calls concat].
    rewrite !app_nil_r. apply layout_exchange_calls.
Qed.

(** C8. A click on an empty or white-space-only brief shows the
    validation alert and does nothing else: no request leaves the page
    and no call reaches the outside. *)
Theorem blank_brief_rejected (p : Page) :
  all_white_space (userInput p) = true ->
  exists p',
    click p = (Val tt, p')
    /\ events_since p p' = [Alert "Please enter your requirements first."]
    /\ List.filter is_fetch (events_since p p') = []
    /\ external_calls (events_since p p') = []
    /\ images p' = images p
    /\ innerHTML p' = innerHTML p.
Proof.
  intros Hblank. apply trim_all_white_space in Hblank.
  eexists. split.
  - apply (click_blank parseImages fetchLayout fetchImage p Hblank).
  - assert (Hev : events_since p
                    (with_event
                       (Alert "Please enter your requirements first.") p)
                  = [Alert "Please enter your requirements first."])
      by (apply events_since_app; reflexivity).
    rewrite Hev. repeat split.
Qed.

End World.

Lemma segmentation_failure_degrades_witness :
  exists p' img',
    Sample.click Sample.gemini (Sample.page " beach party flyer ")
    = (Val tt, p')
    /\ images p' !! 1%nat = Some img'
    /\ resolutionState img' = Resolved
    /\ src img' = "data:image/png;base64,iVBORw0KGgo=".
Proof.
  destruct (segmentation_failure_degrades
              (Some "gemini-key") (Some "together-key") Sample.decode
              Sample.encode "system prompt" "fixed requirements" Sample.parse
              Sample.gemini Sample.together Sample.segmentation_down true
              (fun _ => true) (Sample.page " beach party flyer ")
              Sample.poster 1 Sample.palm "iVBORw0KGgo=")
    as (p' & img' & Hrun & Hi & Hst & Hsrc & _).
  - vm_compute. discriminate.
  - vm_compute. reflexivity.
  - reflexivity.
  - reflexivity.
  - reflexivity.
  - reflexivity.
  - reflexivity.
  - reflexivity.
  - exists p', img'. auto.
Defined.

Lemma layout_failure_aborts_witness :
  exists p',
    Sample.click Sample.gemini_down (Sample.page " beach party flyer ")
    = (Val tt, p')
    /\ List.filter is_fetch_image
         (events_since (Sample.page " beach party flyer ") p') = []
    /\ images p' = [].
Proof.
  destruct (layout_failure_aborts
              (Some "gemini-key") (Some "together-key") Sample.decode
              Sample.encode "system prompt" "fixed requirements" Sample.parse
              Sample.gemini_down Sample.together Sample.segmentation_down true
              (fun _ => true) (Sample.page " beach party flyer ")
              (Error "Failed to generate layout"))
    as (p' & Hrun & _ & Hfetch & _ & Himgs).
  - vm_compute. discriminate.
  - vm_compute. reflexivity.
  - exists p'. auto.
Defined.

Lemma blank_brief_rejected_witness :
  exists p',
    Sample.click Sample.gemini (Sample.page "   ") = (Val tt, p')
    /\ events_since (Sample.page "   ") p'
       = [Alert "Please enter your requirements first."]
    /\ Sample.external_calls Sample.gemini
         (events_since (Sample.page "   ") p') = [].
Proof.
  destruct (blank_brief_rejected
              (Some "gemini-key") (Some "together-key") Sample.decode
              Sample.encode "system prompt" "fixed requirements" Sample.parse
              Sample.gemini Sample.together Sample.segmentation_down true
              (fun _ => true) (Sample.page "   "))
    as (p' & Hrun & Hev & _ & Hcalls & _).
  - reflexivity.
  - exists p'. auto.
Defined.

End SystemFacts.

(** * Further properties of the server *)

Module ServerMore.

Import Server Observe ServerFacts.

(** ** [detectImageMimeFromBuffer] *)

(** The sniff gives one of four labels, never the empty string, and looks
    at no byte beyond the eleventh. *)
Theorem detect_labels_and_reach (buffer : list byte) :
  (detectImageMimeFromBuffer buffer = "image/png"
   \/ detectImageMimeFromBuffer buffer = "image/jpeg"
   \/ detectImageMimeFromBuffer buffer = "image/webp"
   \/ detectImageMimeFromBuffer buffer = "application/octet-stream")
  /\ detectImageMimeFromBuffer buffer <> ""
  /\ detectImageMimeFromBuffer buffer
     = detectImageMimeFromBuffer (take 11 buffer).
Proof.
  split; [|split].
  - unfold detectImageMimeFromBuffer. repeat case_match; auto.
  - unfold detectImageMimeFromBuffer. repeat case_match; discriminate.
  - do 11 (destruct buffer as [|? buffer]; [reflexivity|]). reflexivity.
Qed.

(** The label is [image/png] exactly for the empty buffer and for buffers
    that start with the bytes 89 50 4E 47. *)
Theorem detect_png_iff (buffer : list byte) :
  detectImageMimeFromBuffer buffer = "image/png"
  <-> buffer = [] \/ exists rest, buffer = x89 :: x50 :: x4e :: x47 :: rest.
Proof.
  split.
  - destruct buffer as [|b0 buffer]; [auto|]. intros H. right.
    unfold detectImageMimeFromBuffer in H. cbn [length Nat.eqb] in H.
    destruct buffer as [|b1 [|b2 [|b3 rest]]]; cbn in H;
      (match type of H with
       | (if ?c then _ else _) = _ => destruct c eqn:E
       end;
       [|repeat match type of H with
                | (if ?c then _ else _) = _ => destruct c
                end; discriminate H]);
      repeat match goal with
             | Hb : _ && _ = true |- _ => apply andb_prop in Hb; destruct Hb
             | Hb : Byte.eqb _ _ = true |- _ => apply Byte.byte_dec_bl in Hb
             end;
      try congruence.
    subst. eauto.
  - intros [->|[rest ->]]; reflexivity.
Qed.

(** ** Sizes *)

Lemma valid_dimension_formula (n : Z) :
  valid_dimension n = (2 * Z.max 64 n + 16) / 32 * 16.
Proof.
  unfold valid_dimension, roundToMultiple16, or_number, Math_round_div.
  rewrite clamp64_max.
  destruct (Z.eqb_spec (Z.max 64 n) 0); [lia|reflexivity].
Qed.

(** Resolving a size twice changes nothing, and a larger requested size
    is never sent as a smaller one. *)
Theorem valid_dimension_stable (n m : Z) :
  n <= m ->
  valid_dimension (valid_dimension n) = valid_dimension n
  /\ valid_dimension n <= valid_dimension m.
Proof.
  intros Hnm. rewrite !valid_dimension_formula. split.
  - Z.to_euclidean_division_equations. lia.
  - Z.to_euclidean_division_equations. lia.
Qed.

Lemma valid_dimension_stable_witness :
  valid_dimension (valid_dimension 70) = valid_dimension 70
  /\ valid_dimension 70 <= valid_dimension 81.
Proof. apply (valid_dimension_stable 70 81). lia. Defined.

(** ** Code fences in the markup of the language model *)

Lemma substring_all (s : string) :
  String.substring 0 (String.length s) s = s.
Proof. induction s as [|c s IH]; cbn; [reflexivity|]. f_equal. exact IH. Qed.

Lemma string_drop_app (a b : string) :
  string_drop (String.length a) (a +:+ b) = b.
Proof.
  unfold string_drop. induction a as [|c a IH]; cbn.
  - rewrite Nat.sub_0_r. apply substring_all.
  - exact IH.
Qed.

Lemma prefix_cons (a c : ascii) (p s : string) :
  String.prefix (String a p) (String c s)
  = if Ascii.eqb c a then String.prefix p s else false.
Proof.
  cbn -[ascii_dec Ascii.eqb]. destruct (ascii_dec a c) as [<-|Hne].
  - rewrite Ascii.eqb_refl. reflexivity.
  - apply not_eq_sym, Ascii.eqb_neq in Hne. rewrite Hne. reflexivity.
Qed.

Lemma prefix_nil (s : string) : String.prefix "" s = true.
Proof. destruct s; reflexivity. Qed.

Lemma fence_prefix_ticks (s : string) :
  String.prefix "```" s = true <-> (3 <= ticks s)%nat.
Proof.
  destruct s as [|c0 [|c1 [|c2 s]]]; rewrite ?prefix_cons;
    cbn -[Ascii.eqb];
    repeat match goal with
           | |- context [Ascii.eqb ?c "`"] => destruct (Ascii.eqb c "`")
           end;
    rewrite ?prefix_nil; cbn; split; intros; try discriminate; try lia;
    reflexivity.
Qed.

Lemma fence_prefix_inv (s : string) :
  String.prefix "```" s = true -> exists s', s = "```" +:+ s'.
Proof.
  destruct s as [|c0 [|c1 [|c2 s]]]; rewrite ?prefix_cons;
    cbn -[Ascii.eqb]; try discriminate;
    repeat match goal with
           | |- context [Ascii.eqb ?c "`"] =>
               destruct (Ascii.eqb_spec c "`"); [subst|]
           end;
    rewrite ?prefix_nil; cbn; try discriminate.
  intros _. exists s. reflexivity.
Qed.

(** Removing the fences leaves no fence behind. *)
Lemma remove_all_fuel_fence (fuel : nat) :
  forall s : string,
    (String.length s <= fuel)%nat ->
    (ticks (remove_all_fuel fuel "```" s) <= ticks s)%nat
    /\ occurs "```" (remove_all_fuel fuel "```" s) = false.
Proof.
  induction fuel as [|fuel IH]; intros s Hlen.
  - destruct s; cbn in Hlen; [|lia]. split; [cbn; lia|reflexivity].
  - destruct s as [|c rest]; [split; [cbn; lia|reflexivity]|].
    cbn [remove_all_fuel].
    destruct (String.prefix "```" (String c rest)) eqn:Hp.
    + destruct (fence_prefix_inv _ Hp) as [s' Hs']. rewrite Hs' in *.
      change (String.substring _ _ ("```" +:+ s'))
        with (string_drop (String.length "```") ("```" +:+ s')).
      rewrite (string_drop_app "```" s').
      change ("```" +:+ s') with (String "`" (String "`" (String "`" s')))
        in *.
      cbn in Hlen. destruct (IH s') as [Ht Ho]; [lia|].
      split; [cbn; lia|exact Ho].
    + cbn in Hlen. destruct (IH rest) as [Ht Ho]; [lia|].
      assert (Hlt : (ticks (String c rest) < 3)%nat).
      { destruct (Nat.lt_ge_cases (ticks (String c rest)) 3) as [|Hge];
          [assumption|].
        apply fence_prefix_ticks in Hge. congruence. }
      assert (Hle : (ticks (String c (remove_all_fuel fuel "```" rest))
                     <= ticks (String c rest))%nat)
        by (cbn [ticks]; destruct (Ascii.eqb c "`"); lia).
      split; [exact Hle|].
      cbn [occurs]. rewrite Ho, orb_false_r.
      destruct (String.prefix "```"
                  (String c (remove_all_fuel fuel "```" rest))) eqn:Hp';
        [|reflexivity].
      apply fence_prefix_ticks in Hp'. lia.
Qed.

Lemma remove_all_fence (s : string) :
  occurs "```" (remove_all "```" s) = false.
Proof. apply remove_all_fuel_fence. reflexivity. Qed.

(** ** The layout endpoint *)

(** On every request that reaches it the layout handler sends a reply and
    lets no error escape: 200 with markup that holds no code fence, after
    one call to the language model, or 500 and no markup. *)
Theorem generate_layout_reply
    (GEMINI_API_KEY : option string)
    (geminiApi : string -> FetchResult GeminiData)
    (systemPrompt fixedRequirements : string) (body : LayoutRequest) :
  exists reply log,
    generate_layout GEMINI_API_KEY geminiApi systemPrompt fixedRequirements
      body [] = (Val reply, log)
    /\ ((status reply = 200
         /\ (exists markup,
               json reply = Some {| html := Some markup |}
               /\ occurs "```" markup = false)
         /\ log = [CallGemini (to_string GEMINI_API_KEY)
                     (fullPrompt systemPrompt fixedRequirements body)])
        \/ (status reply = 500 /\ json reply = Some {| html := None |})).
Proof.
  unfold generate_layout, try_catch, callGemini.
  destruct (truthy GEMINI_API_KEY); cbn [negb];
    [|do 2 eexists; split; [reflexivity|right; split; reflexivity]].
  unfold bind, call, await_fetch, await_json, ret, throw.
  repeat case_match; simplify_eq;
    do 2 eexists; (split; [reflexivity|]);
    try (right; split; reflexivity).
  left. split; [reflexivity|]. split; [|reflexivity].
  eexists. split; [reflexivity|]. apply remove_all_fence.
Qed.

(** Without a Gemini key the layout endpoint answers 500 with the text
    [GEMINI_API_KEY is not set.] and calls nothing. *)
Theorem generate_layout_without_key
    (GEMINI_API_KEY : option string)
    (geminiApi : string -> FetchResult GeminiData)
    (systemPrompt fixedRequirements : string) (body : LayoutRequest) :
  truthy GEMINI_API_KEY = false ->
  generate_layout GEMINI_API_KEY geminiApi systemPrompt fixedRequirements
    body []
  = (Val {| status := 500; text := "GEMINI_API_KEY is not set.";
            json := Some {| html := None |} |}, []).
Proof.
  intros Hkey. unfold generate_layout, try_catch, callGemini.
  rewrite Hkey. reflexivity.
Qed.

Lemma generate_layout_without_key_witness :
  generate_layout (Some "") Sample.gemini "system prompt"
    "fixed requirements" {| requirements := "a poster" |} []
  = (Val {| status := 500; text := "GEMINI_API_KEY is not set.";
            json := Some {| html := None |} |}, []).
Proof.
  apply (generate_layout_without_key (Some "") Sample.gemini "system prompt"
           "fixed requirements" {| requirements := "a poster" |}).
  reflexivity.
Defined.

(** ** The image endpoint *)

Section ImageEndpoint.

Variable TOGETHER_API_KEY : option string.
Variable b64decode : string -> list byte.
Variable b64encode : list byte -> string.
Variable togetherApi : TogetherRequest -> FetchResult TogetherData.
Variable removeBackground : Blob -> option (list byte).

Local Abbreviation generateImage :=
  (Server.generateImage TOGETHER_API_KEY b64decode b64encode togetherApi
     removeBackground).
Local Abbreviation generate_image :=
  (Server.generate_image TOGETHER_API_KEY b64decode b64encode togetherApi
     removeBackground).
Local Abbreviation blob_of := (Server.blob_of b64decode).

(** What [generateImage] calls: nothing without a key; else the generator
    once; and after it the segmentation library, once, only for a
    transparent image that the generator delivered. *)
Theorem generateImage_calls (prompt : string) (w h : Z) (t : bool) :
  let req := together_request prompt (valid_dimension w)
               (valid_dimension h) in
  let key := to_string TOGETHER_API_KEY in
  let log := snd (generateImage prompt w h t []) in
  (truthy TOGETHER_API_KEY = false /\ log = [])
  \/ (truthy TOGETHER_API_KEY = true
      /\ (t = false \/ generated_payload (togetherApi req) = None)
      /\ log = [CallTogether key req])
  \/ (exists b64,
        truthy TOGETHER_API_KEY = true
        /\ t = true
        /\ generated_payload (togetherApi req) = Some b64
        /\ log = [CallTogether key req;
                  CallRemoveBackground (blob_of b64)]).
Proof.
  intros req key log. subst log.
  destruct (truthy TOGETHER_API_KEY) eqn:Hkey.
  - right. destruct (generated_payload (togetherApi req)) as [b64|] eqn:Hpay.
    + rewrite (generateImage_success TOGETHER_API_KEY b64decode b64encode
                 togetherApi removeBackground prompt w h t [] b64 Hkey Hpay).
      cbv zeta. destruct t.
      * right. exists b64. rewrite removeBackgroundFun_run. auto.
      * left. auto.
    + destruct (generateImage_failure TOGETHER_API_KEY b64decode b64encode
                 togetherApi removeBackground prompt w h t [] Hkey Hpay)
        as [e ->].
      left. auto.
  - left. rewrite (generateImage_no_key TOGETHER_API_KEY b64decode b64encode
                 togetherApi removeBackground prompt w h t [] Hkey).
    auto.
Qed.

(** On every request that reaches it the image handler sends a reply and
    lets no error escape. It replies 200 exactly when the key is set and
    the generator delivered an image, with a data URL labelled JPEG for an
    opaque image and PNG for a transparent one; otherwise it replies 500
    without a URL. *)
Theorem generate_image_reply (body : ImageRequest) :
  let req := together_request (prompt body) (valid_dimension (width body))
               (valid_dimension (height body)) in
  exists reply log,
    generate_image body [] = (Val reply, log)
    /\ ((exists b64,
           truthy TOGETHER_API_KEY = true
           /\ generated_payload (togetherApi req) = Some b64
           /\ status reply = 200
           /\ json reply
              = Some {| url := Some
                   (if isTransparent body
                    then "data:image/png;base64," +:+
                         match removeBackground (blob_of b64) with
                         | Some outputBuffer => b64encode outputBuffer
                         | None => b64
                         end
                    else "data:image/jpeg;base64," +:+ b64) |})
        \/ ((truthy TOGETHER_API_KEY = false
             \/ generated_payload (togetherApi req) = None)
            /\ status reply = 500
            /\ json reply = Some {| url := None |})).
Proof.
  intros req. unfold Server.generate_image, try_catch, bind.
  destruct (truthy TOGETHER_API_KEY) eqn:Hkey.
  - destruct (generated_payload (togetherApi req)) as [b64|] eqn:Hpay.
    + rewrite (generateImage_success TOGETHER_API_KEY b64decode b64encode
                 togetherApi removeBackground _ _ _ (isTransparent body) []
                 b64 Hkey Hpay).
      cbv zeta. destruct (isTransparent body).
      * rewrite removeBackgroundFun_run. do 2 eexists.
        split; [reflexivity|]. left. exists b64. auto.
      * do 2 eexists. split; [reflexivity|]. left. exists b64. auto.
    + destruct (generateImage_failure TOGETHER_API_KEY b64decode b64encode
                 togetherApi removeBackground (prompt body) (width body)
                  (height body) (isTransparent body) [] Hkey Hpay) as [e ->].
      do 2 eexists. split; [reflexivity|]. right. auto.
  - rewrite (generateImage_no_key TOGETHER_API_KEY b64decode b64encode
                 togetherApi removeBackground _ _ _ _ [] Hkey).
    do 2 eexists. split; [reflexivity|]. right. auto.
Qed.

(** Without a Together key the image endpoint answers 500 with the text
    [TOGETHER_API_KEY is not set.] and calls nothing. *)
Theorem generate_image_without_key (body : ImageRequest) :
  truthy TOGETHER_API_KEY = false ->
  generate_image body []
  = (Val {| status := 500; text := "TOGETHER_API_KEY is not set.";
            json := Some {| url := None |} |}, []).
Proof.
  intros Hkey. unfold Server.generate_image, try_catch, bind.
  rewrite (generateImage_no_key TOGETHER_API_KEY b64decode b64encode
                 togetherApi removeBackground _ _ _ _ [] Hkey). reflexivity.
Qed.

End ImageEndpoint.

Lemma generate_image_without_key_witness :
  Server.generate_image None Sample.decode Sample.encode
    (Sample.constant_generator "iVBORw0KGgo=") (fun _ => None)
    (Client.image_request Sample.palm) []
  = (Val {| status := 500; text := "TOGETHER_API_KEY is not set.";
            json := Some {| url := None |} |}, []).
Proof.
  apply (generate_image_without_key None Sample.decode Sample.encode
           (Sample.constant_generator "iVBORw0KGgo=") (fun _ => None)
           (Client.image_request Sample.palm)).
  reflexivity.
Defined.

(** ** The remove-bg endpoint *)

Lemma append_cons (c : ascii) (a b : string) :
  String c a +:+ b = String c (a +:+ b).
Proof. reflexivity. Qed.

Lemma prefix_app (a b : string) : String.prefix a (a +:+ b) = true.
Proof.
  induction a as [|c a IH]; [apply prefix_nil|].
  rewrite append_cons, prefix_cons, Ascii.eqb_refl. exact IH.
Qed.

Lemma prefix_app_false (a b : string) :
  forall s, String.prefix a s = false -> String.prefix (a +:+ b) s = false.
Proof.
  induction a as [|c a IH]; intros s Hs.
  - rewrite prefix_nil in Hs. discriminate.
  - rewrite append_cons. destruct s as [|d s]; [reflexivity|].
    rewrite prefix_cons in *. destruct (Ascii.eqb d c); [auto|reflexivity].
Qed.

Lemma eqb_empty (s : string) : s <> "" -> String.eqb s "" = false.
Proof. intros Hs. apply String.eqb_neq. exact Hs. Qed.

Section RemoveBg.

Variable b64decode : string -> list byte.
Variable b64encode : list byte -> string.
Variable removeBackground : Blob -> option (list byte).
Variable remoteHost : string -> FetchResult RemoteImage.

Local Abbreviation remove_bg :=
  (Server.remove_bg b64decode b64encode removeBackground remoteHost).

(** A string that starts with [data:] and is not a base64 image data URL
    (other media type, no [;base64,]) is answered 400 and nothing is
    called. *)
Theorem remove_bg_malformed_data_url (u : string) :
  startsWith u "data:" = true ->
  match_data_url u = None ->
  remove_bg (Some u) []
  = (Val (bad_request "Invalid data URL format"), []).
Proof.
  intros Hdata Hmatch.
  unfold Server.remove_bg, remove_bg_classify, try_catch, bind.
  rewrite Hdata, Hmatch. reflexivity.
Qed.

(** A bare base64 text goes to the library as its decoding, under the
    sniffed type or else [image/png], in the one call the handler makes.
    The reply is 200 with the cut-out as a PNG data URL; 200 with the
    input again when the cut-out is empty; 500 without a URL when the
    library fails: this handler does not fall back to the input then. *)
Theorem remove_bg_bare_base64 (u : string) :
  startsWith u "data:" = false ->
  startsWith u "http://" = false ->
  startsWith u "https://" = false ->
  u <> "" ->
  let blob := {| blob_bytes := b64decode u;
                 blob_type := settled_mime "image/png" (b64decode u) |} in
  exists reply,
    remove_bg (Some u) [] = (Val reply, [CallRemoveBackground blob])
    /\ match removeBackground blob with
       | None =>
           status reply = 500 /\ json reply = Some {| url := None |}
       | Some outputPngBuffer =>
           let shown := if Nat.eqb (length outputPngBuffer) 0
                        then b64decode u else outputPngBuffer in
           status reply = 200
           /\ json reply
              = Some {| url := Some ("data:image/png;base64,"
                                     +:+ b64encode shown) |}
       end.
Proof.
  intros Hdata Hhttp Hhttps Hu blob. subst blob.
  unfold Server.remove_bg, remove_bg_classify, try_catch, bind, settled_mime.
  rewrite Hdata, Hhttp, Hhttps.
  rewrite (prefix_app_false "data:" "image" u Hdata : startsWith u "data:image" = false).
  cbn -[detectImageMimeFromBuffer String.eqb].
  rewrite (eqb_empty u Hu). cbn -[detectImageMimeFromBuffer String.eqb].
  destruct (removeBackground _) as [out|];
    [|eexists; split; [reflexivity|split; reflexivity]].
  destruct (Nat.eqb (length out) 0);
    eexists; (split; [reflexivity|split; reflexivity]).
Qed.

(** A remote image that cannot be downloaded is answered 400; the library
    is not called. *)
Theorem remove_bg_remote_unreachable (u : string) :
  startsWith u "data:" = false ->
  startsWith u "http://" || startsWith u "https://" = true ->
  downloaded (remoteHost u) = None ->
  remove_bg (Some u) []
  = (Val (bad_request "Invalid imageUrl or unable to fetch it"),
     [CallRemote u]).
Proof.
  intros Hdata Hhttp Hdown.
  unfold Server.remove_bg, remove_bg_classify, try_catch, bind, call.
  rewrite Hdata, Hhttp. unfold downloaded in Hdown.
  destruct (remoteHost u) as [|response]; [reflexivity|].
  cbn. destruct (ok response); [|reflexivity].
  cbn. rewrite Hdown. reflexivity.
Qed.

End RemoveBg.

Lemma remove_bg_malformed_data_url_witness :
  Server.remove_bg Sample.decode Sample.encode (fun _ => None)
    (fun _ => Rejected) (Some "data:text/plain;base64,aGk=") []
  = (Val (bad_request "Invalid data URL format"), []).
Proof.
  apply (remove_bg_malformed_data_url Sample.decode Sample.encode
           (fun _ => None) (fun _ => Rejected) "data:text/plain;base64,aGk=");
    vm_compute; reflexivity.
Defined.

Lemma remove_bg_bare_base64_witness :
  snd (Server.remove_bg Sample.decode Sample.encode (fun _ => None)
         (fun _ => Rejected) (Some "iVBORw0KGgo=") [])
  = [CallRemoveBackground {| blob_bytes := []; blob_type := "image/png" |}].
Proof.
  destruct (remove_bg_bare_base64 Sample.decode Sample.encode
              (fun _ => None) (fun _ => Rejected) "iVBORw0KGgo=")
    as (reply & Hrun & _);
    [reflexivity|reflexivity|reflexivity|discriminate|].
  rewrite Hrun. reflexivity.
Defined.

Lemma remove_bg_remote_unreachable_witness :
  Server.remove_bg Sample.decode Sample.encode (fun _ => None)
    (fun _ => Rejected) (Some "https://example.com/cat.png") []
  = (Val (bad_request "Invalid imageUrl or unable to fetch it"),
     [CallRemote "https://example.com/cat.png"]).
Proof.
  apply (remove_bg_remote_unreachable Sample.decode Sample.encode
           (fun _ => None) (fun _ => Rejected) "https://example.com/cat.png");
    reflexivity.
Defined.

(** *** Data URLs *)

Lemma mime_char_not_comma (c : ascii) :
  is_mime_char c = true -> Ascii.eqb c "," = false.
Proof.
  destruct (Ascii.eqb_spec c ",") as [->|]; [|reflexivity].
  vm_compute. discriminate.
Qed.

Lemma all_mime_no_comma (s : string) : all_mime s = true -> no_comma s = true.
Proof.
  induction s as [|c s IH]; [reflexivity|]. cbn [all_mime no_comma].
  intros [Hc Hs]%andb_prop. rewrite (mime_char_not_comma c Hc). cbn. auto.
Qed.

Lemma span_mime_app (sub rest : string) :
  all_mime sub = true ->
  span_mime (sub +:+ ";" +:+ rest) = (sub, ";" +:+ rest).
Proof.
  induction sub as [|c sub IH]; [reflexivity|]. cbn [all_mime].
  intros [Hc Hs]%andb_prop. rewrite append_cons. cbn [span_mime].
  rewrite Hc, (IH Hs). reflexivity.
Qed.

Lemma cut_at_comma_app (a b : string) :
  no_comma a = true ->
  cut_at_comma (a +:+ b)
  = (a +:+ fst (cut_at_comma b), snd (cut_at_comma b)).
Proof.
  induction a as [|c a IH];
    [intros _; change ("" +:+ b) with b; destruct (cut_at_comma b);
     reflexivity|].
  cbn [no_comma]. intros [Hc Ha]%andb_prop. apply negb_true_iff in Hc.
  rewrite append_cons. cbn [cut_at_comma]. rewrite Hc, (IH Ha). reflexivity.
Qed.

Lemma cut_at_comma_none (a : string) :
  no_comma a = true -> cut_at_comma a = (a, None).
Proof.
  induction a as [|c a IH]; [reflexivity|].
  cbn [no_comma]. intros [Hc Ha]%andb_prop. apply negb_true_iff in Hc.
  cbn [cut_at_comma]. rewrite Hc, (IH Ha). reflexivity.
Qed.

(** The two ways in which the handler takes a data URL apart agree on a
    well-formed one: the regular expression and [split(',')[1]] both give
    the base64 text. *)
Lemma data_url_parts (sub payload : string) :
  all_mime sub = true ->
  sub <> "" ->
  no_comma payload = true ->
  no_line_terminator payload = true ->
  let u := "data:image/" +:+ sub +:+ ";base64," +:+ payload in
  match_data_url u = Some ("image/" +:+ sub, payload)
  /\ split_comma_1 u = Some payload.
Proof.
  intros Hsub Hne Hcomma Hline u. subst u. split.
  - unfold match_data_url, startsWith.
    rewrite (prefix_app "data:image/").
    rewrite (string_drop_app "data:image/").
    change (";base64," +:+ payload) with (";" +:+ ("base64," +:+ payload)).
    rewrite (span_mime_app sub _ Hsub), (eqb_empty sub Hne).
    change (";" +:+ ("base64," +:+ payload)) with (";base64," +:+ payload).
    rewrite (prefix_app ";base64,"), (string_drop_app ";base64,"), Hline.
    reflexivity.
  - unfold split_comma_1.
    rewrite (cut_at_comma_app "data:image/") by reflexivity.
    rewrite (cut_at_comma_app sub) by (apply all_mime_no_comma, Hsub).
    change (cut_at_comma (";base64," +:+ payload))
      with (";base64", Some payload).
    cbn [fst snd]. rewrite (cut_at_comma_none payload Hcomma). reflexivity.
Qed.

(** A well-formed data URL: the regular expression and [split(',')[1]]
    agree on its base64 text, and the handler hands the library the
    decoding of that text, in the one call it makes. *)
Theorem remove_bg_data_url
    (b64decode : string -> list byte) (b64encode : list byte -> string)
    (removeBackground : Blob -> option (list byte))
    (remoteHost : string -> FetchResult RemoteImage)
    (sub payload : string) :
  all_mime sub = true ->
  sub <> "" ->
  no_comma payload = true ->
  no_line_terminator payload = true ->
  payload <> "" ->
  let u := "data:image/" +:+ sub +:+ ";base64," +:+ payload in
  match_data_url u = Some ("image/" +:+ sub, payload)
  /\ split_comma_1 u = Some payload
  /\ segmented_inputs
       (snd (Server.remove_bg b64decode b64encode removeBackground
               remoteHost (Some u) []))
     = [b64decode payload].
Proof.
  intros Hsub Hne Hcomma Hline Hpayload.
  destruct (data_url_parts sub payload Hsub Hne Hcomma Hline) as [Hm Hs].
  cbv zeta in Hm, Hs |- *. split; [exact Hm|]. split; [exact Hs|].
  unfold Server.remove_bg, remove_bg_classify, try_catch, bind.
  unfold startsWith.
  assert (H1 : String.prefix "data:"
                 ("data:image/" +:+ sub +:+ ";base64," +:+ payload) = true)
    by exact (prefix_app "data:"
                ("image/" +:+ sub +:+ ";base64," +:+ payload)).
  assert (H2 : String.prefix "data:image"
                 ("data:image/" +:+ sub +:+ ";base64," +:+ payload) = true)
    by exact (prefix_app "data:image"
                ("/" +:+ sub +:+ ";base64," +:+ payload)).
  rewrite H1, H2, Hm, Hs.
  cbn -[detectImageMimeFromBuffer String.eqb String.append].
  rewrite (eqb_empty payload Hpayload).
  cbn -[detectImageMimeFromBuffer String.eqb String.append].
  destruct (removeBackground _) as [out|]; [|reflexivity].
  destruct (Nat.eqb (length out) 0); reflexivity.
Qed.

Lemma remove_bg_data_url_witness :
  segmented_inputs
    (snd (Server.remove_bg Sample2.text_bytes Sample.encode (fun _ => None)
            (fun _ => Rejected) (Some "data:image/SVG+xml;base64,PHN2Zz4=")
            []))
  = [[x50; x48; x4e; x32; x5a; x7a; x34; x3d]].
Proof.
  apply (remove_bg_data_url Sample2.text_bytes Sample.encode (fun _ => None)
           (fun _ => Rejected) "SVG+xml" "PHN2Zz4=");
    [reflexivity|discriminate|reflexivity|reflexivity|discriminate].
Defined.

(** A request that carries no image is answered 400 and nothing is
    called: [imageUrl] missing, the empty string, or a data URL whose
    base64 text is empty. *)
Theorem remove_bg_without_image
    (b64decode : string -> list byte) (b64encode : list byte -> string)
    (removeBackground : Blob -> option (list byte))
    (remoteHost : string -> FetchResult RemoteImage)
    (sub : string) :
  all_mime sub = true ->
  sub <> "" ->
  Server.remove_bg b64decode b64encode removeBackground remoteHost None []
  = (Val (bad_request "Invalid or missing imageUrl"), [])
  /\ Server.remove_bg b64decode b64encode removeBackground remoteHost
       (Some "") []
     = (Val (bad_request "Invalid or missing imageUrl"), [])
  /\ Server.remove_bg b64decode b64encode removeBackground remoteHost
       (Some ("data:image/" +:+ sub +:+ ";base64,")) []
     = (Val (bad_request "Invalid or missing imageUrl"), []).
Proof.
  intros Hsub Hne. split; [reflexivity|]. split; [reflexivity|].
  destruct (data_url_parts sub "" Hsub Hne eq_refl eq_refl) as [Hm Hs].
  cbv zeta in Hm, Hs.
  change ("data:image/" +:+ sub +:+ ";base64," +:+ "")
    with ("data:image/" +:+ sub +:+ ";base64,") in Hm, Hs.
  unfold Server.remove_bg, remove_bg_classify, try_catch, bind.
  unfold startsWith.
  assert (H1 : String.prefix "data:"
                 ("data:image/" +:+ sub +:+ ";base64,") = true)
    by exact (prefix_app "data:" ("image/" +:+ sub +:+ ";base64,")).
  assert (H2 : String.prefix "data:image"
                 ("data:image/" +:+ sub +:+ ";base64,") = true)
    by exact (prefix_app "data:image" ("/" +:+ sub +:+ ";base64,")).
  rewrite H1, H2, Hm, Hs. reflexivity.
Qed.

Lemma remove_bg_without_image_witness :
  Server.remove_bg Sample.decode Sample.encode (fun _ => None)
    (fun _ => Rejected) (Some "data:image/png;base64,") []
  = (Val (bad_request "Invalid or missing imageUrl"), []).
Proof.
  apply (remove_bg_without_image Sample.decode Sample.encode (fun _ => None)
           (fun _ => Rejected) "png"); [reflexivity|discriminate].
Defined.


End ServerMore.

(** * Properties of the earlier versions *)

Module LegacyFacts.

Import Server Observe.

Lemma append_cancel_l (a x y : string) : a +:+ x = a +:+ y -> x = y.
Proof.
  induction a as [|c a IH]; [trivial|].
  intros H. injection H as H. auto.
Qed.

(** In the earlier versions the layout handler sends the brief to the
    language model: with a key set, requests with different briefs make
    different calls. *)
Theorem legacy_layout_carries_brief
    (GEMINI_API_KEY : option string)
    (geminiApi : string -> FetchResult GeminiData)
    (systemPrompt : string) (body1 body2 : LayoutRequest) :
  truthy GEMINI_API_KEY = true ->
  requirements body1 <> requirements body2 ->
  snd (Legacy.Layout.generate_layout GEMINI_API_KEY geminiApi systemPrompt
         body1 [])
  = [CallGemini (to_string GEMINI_API_KEY)
       (Legacy.Layout.fullPrompt systemPrompt body1)]
  /\ snd (Legacy.Layout.generate_layout GEMINI_API_KEY geminiApi systemPrompt
            body1 [])
     <> snd (Legacy.Layout.generate_layout GEMINI_API_KEY geminiApi
               systemPrompt body2 []).
Proof.
  intros Hkey Hne.
  assert (Hlog : forall body,
             snd (Legacy.Layout.generate_layout GEMINI_API_KEY geminiApi
                    systemPrompt body [])
             = [CallGemini (to_string GEMINI_API_KEY)
                  (Legacy.Layout.fullPrompt systemPrompt body)]).
  { intros body.
    unfold Legacy.Layout.generate_layout, try_catch, callGemini.
    rewrite Hkey. cbn [negb].
    unfold bind, call, await_fetch, await_json, ret, throw.
    repeat case_match; simplify_eq; reflexivity. }
  split; [apply Hlog|]. rewrite !Hlog. intros Heq. apply Hne.
  injection Heq as Heq. unfold Legacy.Layout.fullPrompt in Heq.
  repeat apply append_cancel_l in Heq. exact Heq.
Qed.

Lemma legacy_layout_carries_brief_witness :
  snd (Legacy.Layout.generate_layout (Some "gemini-key") Sample.gemini
         "system prompt" {| requirements := "A vibrant summer party flyer" |}
         [])
  <> snd (Legacy.Layout.generate_layout (Some "gemini-key") Sample.gemini
            "system prompt" {| requirements := "A jazz night poster" |} []).
Proof.
  apply (legacy_layout_carries_brief (Some "gemini-key") Sample.gemini
           "system prompt" {| requirements := "A vibrant summer party flyer" |}
           {| requirements := "A jazz night poster" |});
    [reflexivity|discriminate].
Defined.

(** In the first earlier version a transparent image whose segmentation
    fails comes back as the bare base64 text, without the [data:] header
    that the cut-out gets. *)
Theorem legacy_fallback_is_bare_base64
    (TOGETHER_API_KEY : option string)
    (b64decode : string -> list byte) (b64encode : list byte -> string)
    (togetherApi : TogetherRequest -> FetchResult TogetherData)
    (removeBackground : list byte -> option (list byte))
    (prompt : string) (w h : Z) (b64 : string) :
  truthy TOGETHER_API_KEY = true ->
  generated_payload
    (togetherApi (together_request prompt (valid_dimension w)
                    (valid_dimension h))) = Some b64 ->
  Legacy.V1.generateImage TOGETHER_API_KEY b64decode b64encode togetherApi
    removeBackground prompt w h true []
  = (Val match removeBackground (b64decode b64) with
         | Some outputBuffer =>
             "data:image/png;base64," +:+ b64encode outputBuffer
         | None => b64
         end,
     [b64decode b64]).
Proof.
  intros Hkey Hpay. unfold Legacy.V1.generateImage. rewrite Hkey.
  cbn [negb]. fold (clamp64 w) (clamp64 h).
  fold (valid_dimension w) (valid_dimension h).
  fold (together_request prompt (valid_dimension w) (valid_dimension h)).
  unfold generated_payload in Hpay.
  destruct (togetherApi _) as [|response]; [discriminate|].
  unfold bind, await_fetch, await_json, ret.
  destruct (ok response); [|discriminate]. cbn [negb] in *.
  destruct (json response) as [d|]; [|discriminate].
  destruct (data d) as [items|]; [|discriminate].
  destruct (items !! 0%nat) as [item|]; [|discriminate].
  destruct (truthy (b64_json item)); [|discriminate].
  injection Hpay as <-.
  unfold Legacy.V1.removeBackgroundFun, try_catch, bind.
  destruct (removeBackground _); reflexivity.
Qed.

Lemma legacy_fallback_is_bare_base64_witness :
  fst (Legacy.V1.generateImage (Some "key") Sample.decode Sample.encode
         (Sample.constant_generator "iVBORw0KGgo=") (fun _ => None)
         "a palm tree sticker" 70 81 true [])
  = Val "iVBORw0KGgo=".
Proof.
  rewrite (legacy_fallback_is_bare_base64 (Some "key") Sample.decode
             Sample.encode (Sample.constant_generator "iVBORw0KGgo=")
             (fun _ => None) "a palm tree sticker" 70 81 "iVBORw0KGgo=");
    reflexivity.
Defined.

(** In the second earlier version the transparency flag changes nothing:
    the same request is made and the same JPEG-labelled result comes
    back. *)
Theorem legacy_stub_ignores_transparency
    (TOGETHER_API_KEY IMAGE_GEN_MODEL : option string)
    (togetherApi : Legacy.V2.TogetherRequest2 -> FetchResult TogetherData)
    (prompt : string) (w h : Z) (log : Legacy.V2.Requests) :
  Legacy.V2.generateImage TOGETHER_API_KEY IMAGE_GEN_MODEL togetherApi
    prompt w h true log
  = Legacy.V2.generateImage TOGETHER_API_KEY IMAGE_GEN_MODEL togetherApi
      prompt w h false log.
Proof.
  unfold Legacy.V2.generateImage, Legacy.V2.removeBackground, bind,
    await_fetch, await_json, ret, throw.
  repeat case_match; simplify_eq; reflexivity.
Qed.

End LegacyFacts.

(** * Further properties of the page script *)

Module ClientMore.

Import Client ClientFacts.

Section Runs.

Variable parseImages : string -> list Img.
Variable fetchLayout : LayoutRequest -> FetchResult LayoutJson.
Variable fetchImage : nat -> ImageRequest -> FetchResult ImageJson.

Local Abbreviation click := (Client.click parseImages fetchLayout fetchImage).
Local Abbreviation resolve := (Client.resolve fetchImage).
Local Abbreviation item_events := (Client.item_events fetchImage).
Local Abbreviation run_events := (Client.run_events fetchImage).

Lemma resolve_keeps_attributes (i : nat) (img : Img) :
  x_prompt (resolve i img) = x_prompt img
  /\ transparent (resolve i img) = transparent img.
Proof.
  unfold Client.resolve. destruct (image_outcome _); repeat split.
Qed.

Lemma item_events_fetch (total i : nat) (img : Img) :
  List.filter is_fetch_image (item_events total i img)
  = [FetchImage i (image_request img)].
Proof.
  unfold Client.item_events. destruct (image_outcome _); reflexivity.
Qed.

(** On any brief that is not blank the handler returns, whatever the
    network does, and leaves the button enabled, the indicator hidden and
    the text field as it was. *)
Theorem click_always_settles (p : Page) :
  trim (userInput p) <> "" ->
  exists p',
    click p = (Val tt, p')
    /\ disabled p' = false
    /\ hidden p' = true
    /\ userInput p' = userInput p.
Proof.
  intros Hreq.
  destruct (layout_outcome
              (fetchLayout {| requirements := trim (userInput p) |}))
    as [e|h] eqn:Hlayout.
  - eexists. split; [apply (click_aborts _ _ _ p e Hreq Hlayout)|].
    repeat split.
  - destruct (click_resolves parseImages fetchLayout fetchImage p h Hreq
                Hlayout) as [tc Hrun].
    eexists. split; [exact Hrun|]. repeat split.
Qed.

(** A run writes neither the [x-prompt] nor the [transparent] attribute of
    a placeholder, and keeps the number and the order of the
    placeholders. *)
Theorem placeholders_keep_their_attributes (p : Page) (h : string) :
  trim (userInput p) <> "" ->
  layout_outcome (fetchLayout {| requirements := trim (userInput p) |})
  = inr h ->
  exists p',
    click p = (Val tt, p')
    /\ length (images p') = length (parseImages h)
    /\ List.map x_prompt (images p') = List.map x_prompt (parseImages h)
    /\ List.map transparent (images p')
       = List.map transparent (parseImages h).
Proof.
  intros Hreq Hlayout.
  destruct (click_resolves parseImages fetchLayout fetchImage p h Hreq
              Hlayout) as [tc Hrun].
  eexists. split; [exact Hrun|]. cbn [images].
  split; [apply length_imap|].
  split; apply list_eq; intros i;
    rewrite !list_lookup_fmap, list_lookup_imap;
    (destruct (parseImages h !! i) as [img|]; cbn; [|reflexivity]);
    f_equal; apply resolve_keeps_attributes.
Qed.

(** Each placeholder is requested exactly once, in document order, with
    the request read off the parsed element: there is no retry and no
    request is skipped. *)
Theorem one_request_per_placeholder (p : Page) (h : string) :
  trim (userInput p) <> "" ->
  layout_outcome (fetchLayout {| requirements := trim (userInput p) |})
  = inr h ->
  exists p',
    click p = (Val tt, p')
    /\ List.filter is_fetch_image (events_since p p')
       = imap (fun i img => FetchImage i (image_request img)) (parseImages h).
Proof.
  intros Hreq Hlayout.
  destruct (click_resolves parseImages fetchLayout fetchImage p h Hreq
              Hlayout) as [tc Hrun].
  eexists. split; [exact Hrun|]. rewrite events_since_run.
  unfold Client.run_events. rewrite !List.filter_app.
  rewrite (filter_concat_imap _ _ _
             (fun i img => [FetchImage i (image_request img)]))
    by (intros; apply item_events_fetch).
  rewrite concat_imap_singleton.
  destruct (Nat.ltb 0 (length (parseImages h))); reflexivity.
Qed.

(** A placeholder whose image request succeeds ends [Resolved]: its [src]
    is the URL of the reply, it carries the generated mark, and its [alt]
    is untouched. *)
Theorem success_resolves (p : Page) (h : string) (i : nat) (img : Img)
    (imageUrl : string) :
  trim (userInput p) <> "" ->
  layout_outcome (fetchLayout {| requirements := trim (userInput p) |})
  = inr h ->
  parseImages h !! i = Some img ->
  image_outcome (fetchImage i (image_request img)) = inr imageUrl ->
  exists p' img',
    click p = (Val tt, p')
    /\ images p' !! i = Some img'
    /\ resolutionState img' = Resolved
    /\ src img' = imageUrl
    /\ data_x_image_generated img' = Some "1"
    /\ alt img' = alt img.
Proof.
  intros Hreq Hlayout Hi Hout.
  destruct (click_resolves parseImages fetchLayout fetchImage p h Hreq
              Hlayout) as [tc Hrun].
  eexists. exists (resolve i img). split; [exact Hrun|]. cbn [images].
  split; [rewrite list_lookup_imap, Hi; reflexivity|].
  unfold Client.resolve. rewrite Hout. repeat split.
Qed.

End Runs.

Lemma click_always_settles_witness :
  exists p',
    Client.click Sample.parse Sample.layout_ok Sample.image_replies
      (Sample.page " beach party flyer ") = (Val tt, p')
    /\ disabled p' = false /\ hidden p' = true.
Proof.
  destruct (click_always_settles Sample.parse Sample.layout_ok
              Sample.image_replies (Sample.page " beach party flyer "))
    as (p' & Hrun & Hd & Hh & _).
  - vm_compute. discriminate.
  - exists p'. auto.
Defined.

Lemma placeholders_keep_their_attributes_witness :
  exists p',
    Client.click Sample.parse Sample.layout_ok Sample.image_replies
      (Sample.page " beach party flyer ") = (Val tt, p')
    /\ List.map x_prompt (images p')
       = ["a red kite"; "a palm tree sticker"; "a wave at sunset"].
Proof.
  destruct (placeholders_keep_their_attributes Sample.parse Sample.layout_ok
              Sample.image_replies (Sample.page " beach party flyer ")
              Sample.poster)
    as (p' & Hrun & _ & Hp & _).
  - vm_compute. discriminate.
  - reflexivity.
  - exists p'. auto.
Defined.

Lemma one_request_per_placeholder_witness :
  exists p',
    Client.click Sample.parse Sample.layout_ok Sample.image_replies
      (Sample.page " beach party flyer ") = (Val tt, p')
    /\ length (List.filter is_fetch_image
                 (events_since (Sample.page " beach party flyer ") p'))
       = 3%nat.
Proof.
  destruct (one_request_per_placeholder Sample.parse Sample.layout_ok
              Sample.image_replies (Sample.page " beach party flyer ")
              Sample.poster)
    as (p' & Hrun & Hf).
  - vm_compute. discriminate.
  - reflexivity.
  - exists p'. split; [exact Hrun|]. rewrite Hf. reflexivity.
Defined.

Lemma success_resolves_witness :
  exists p' img',
    Client.click Sample.parse Sample.layout_ok Sample.image_replies
      (Sample.page " beach party flyer ") = (Val tt, p')
    /\ images p' !! 0%nat = Some img'
    /\ src img' = "data:image/jpeg;base64,AAAA".
Proof.
  destruct (success_resolves Sample.parse Sample.layout_ok
              Sample.image_replies (Sample.page " beach party flyer ")
              Sample.poster 0 Sample.kite "data:image/jpeg;base64,AAAA")
    as (p' & img' & Hrun & Hi & _ & Hsrc & _).
  - vm_compute. discriminate.
  - reflexivity.
  - reflexivity.
  - reflexivity.
  - exists p', img'. auto.
Defined.

End ClientMore.

(** * Further properties of page and server together *)

Module SystemMore.

Import Server Client System ServerFacts ClientFacts SystemFacts.

Lemma concat_map_concat_imap {A B C} (f : B -> list C) (l : list A) :
  forall (g : nat -> A -> list B),
    concat (List.map f (concat (imap g l)))
    = concat (imap (fun i x => concat (List.map f (g i x))) l).
Proof.
  induction l as [|x l IH]; intros g; [reflexivity|].
  rewrite !imap_cons. cbn [concat]. rewrite List.map_app, concat_app.
  f_equal. apply (IH (g ∘ S)).
Qed.

Section World.

Variable GEMINI_API_KEY : option string.
Variable TOGETHER_API_KEY : option string.
Variable b64decode : string -> list byte.
Variable b64encode : list byte -> string.
Variable systemPrompt : string.
Variable fixedRequirements : string.
Variable parseImages : string -> list Img.
Variable geminiApi : string -> FetchResult GeminiData.
Variable togetherApi : nat -> TogetherRequest -> FetchResult TogetherData.
Variable removeBackground : nat -> Blob -> option (list byte).
Variable online_layout : bool.
Variable online_image : nat -> bool.

Local Abbreviation fetchLayout :=
  (System.fetchLayout GEMINI_API_KEY systemPrompt fixedRequirements
     geminiApi online_layout).
Local Abbreviation fetchImage :=
  (System.fetchImage TOGETHER_API_KEY b64decode b64encode togetherApi
     removeBackground online_image).
Local Abbreviation image_exchange :=
  (System.image_exchange TOGETHER_API_KEY b64decode b64encode togetherApi
     removeBackground online_image).
Local Abbreviation layout_exchange :=
  (System.layout_exchange GEMINI_API_KEY systemPrompt fixedRequirements
     geminiApi online_layout).
Local Abbreviation click :=
  (System.click GEMINI_API_KEY TOGETHER_API_KEY b64decode b64encode
     systemPrompt fixedRequirements parseImages geminiApi togetherApi
     removeBackground online_layout online_image).
Local Abbreviation external_calls :=
  (System.external_calls GEMINI_API_KEY TOGETHER_API_KEY b64decode
     b64encode systemPrompt fixedRequirements geminiApi togetherApi
     removeBackground online_layout online_image).

Lemma external_calls_app (l1 l2 : list Event) :
  external_calls (l1 ++ l2) = external_calls l1 ++ external_calls l2.
Proof.
  unfold System.external_calls. rewrite List.map_app, concat_app.
  reflexivity.
Qed.

Lemma external_calls_item (total i : nat) (img : Img) :
  external_calls (Client.item_events fetchImage total i img)
  = snd (image_exchange i (image_request img)).
Proof.
  unfold Client.item_events, System.external_calls.
  destruct (image_outcome _); cbn; rewrite !app_nil_r; reflexivity.
Qed.

Lemma external_calls_run (body : LayoutRequest) (imgs : list Img) :
  external_calls (Client.run_events fetchImage body imgs)
  = snd (layout_exchange body)
    ++ concat (imap (fun i img => snd (image_exchange i (image_request img)))
                 imgs).
Proof.
  unfold Client.run_events. rewrite !external_calls_app.
  assert (Hpre : external_calls
                   [LoadingText GeneratingLayout; FetchLayout body]
                 = snd (layout_exchange body))
    by (unfold System.external_calls; cbn; apply app_nil_r).
  assert (Hmid : external_calls
                   (if Nat.ltb 0 (length imgs)
                    then [LoadingText (GeneratingImages (length imgs))]
                    else []) = [])
    by (destruct (Nat.ltb 0 (length imgs)); reflexivity).
  rewrite Hpre, Hmid. cbn [app]. f_equal.
  unfold System.external_calls at 1.
  etrans; [apply (concat_map_concat_imap (C := ExtCall))|].
  f_equal. apply imap_ext. intros i img _.
  apply (external_calls_item (length imgs)).
Qed.

(** The calls that a run makes to the outside are those of the layout
    request followed by those of each placeholder's image request, in
    document order. *)
Theorem calls_of_a_run (p : Page) (h : string) :
  trim (userInput p) <> "" ->
  layout_outcome (fetchLayout {| requirements := trim (userInput p) |})
  = inr h ->
  exists p',
    click p = (Val tt, p')
    /\ external_calls (events_since p p')
       = snd (layout_exchange {| requirements := trim (userInput p) |})
         ++ concat (imap (fun i img =>
                            snd (image_exchange i (image_request img)))
                      (parseImages h)).
Proof.
  intros Hreq Hlayout.
  destruct (click_resolves parseImages fetchLayout fetchImage p h Hreq
              Hlayout) as [tc Hrun].
  eexists. split; [exact Hrun|]. rewrite events_since_run.
  apply external_calls_run.
Qed.

Lemma gemini_calls_only (log : Log) :
  forallb is_gemini_call log = true ->
  segmented_inputs log = [] /\ sent_dimensions log = [].
Proof.
  induction log as [|c log IH]; [split; reflexivity|].
  cbn [forallb]. intros [Hc Hlog]%andb_prop.
  destruct c; try discriminate. apply IH, Hlog.
Qed.

Lemma image_exchange_opaque (i : nat) (body : ImageRequest) :
  isTransparent body = false ->
  segmented_inputs (snd (image_exchange i body)) = [].
Proof.
  intros Ht. unfold System.image_exchange, serve.
  destruct (online_image i); [|reflexivity].
  unfold generate_image, try_catch, bind. rewrite Ht.
  destruct (truthy TOGETHER_API_KEY) eqn:Hkey.
  - destruct (generated_payload
                (togetherApi i
                   (together_request (prompt body)
                      (valid_dimension (width body))
                      (valid_dimension (height body))))) as [b64|] eqn:Hpay.
    + rewrite (generateImage_success TOGETHER_API_KEY b64decode b64encode
                 (togetherApi i) (removeBackground i) _ _ _ false [] b64
                 Hkey Hpay).
      reflexivity.
    + destruct (generateImage_failure TOGETHER_API_KEY b64decode b64encode
                  (togetherApi i) (removeBackground i) (prompt body)
                  (width body) (height body) false [] Hkey Hpay) as [e ->].
      reflexivity.
  - rewrite (generateImage_no_key TOGETHER_API_KEY b64decode b64encode
               (togetherApi i) (removeBackground i) _ _ _ _ [] Hkey).
    reflexivity.
Qed.

Lemma image_exchange_without_key (i : nat) (body : ImageRequest) :
  truthy TOGETHER_API_KEY = false ->
  snd (image_exchange i body) = []
  /\ exists e, image_outcome (fetchImage i body) = inl e.
Proof.
  intros Hkey. unfold System.fetchImage, System.image_exchange, serve.
  destruct (online_image i); [|split; [reflexivity|eexists; reflexivity]].
  unfold generate_image, try_catch, bind.
  rewrite (generateImage_no_key TOGETHER_API_KEY b64decode b64encode
             (togetherApi i) (removeBackground i) _ _ _ _ [] Hkey).
  split; [reflexivity|eexists; reflexivity].
Qed.

Lemma image_exchange_cutout (i : nat) (img : Img) (b64 : string)
    (outputBuffer : list byte) :
  transparent img = Some "true" ->
  online_image i = true ->
  truthy TOGETHER_API_KEY = true ->
  generated_payload (togetherApi i (raster_request img)) = Some b64 ->
  removeBackground i (blob_of b64decode b64) = Some outputBuffer ->
  image_exchange i (image_request img)
  = (Fulfilled {| status := 200;
                  text := "data:image/png;base64," +:+ b64encode outputBuffer;
                  json := Some {| url := Some ("data:image/png;base64,"
                                               +:+ b64encode outputBuffer) |} |},
     [CallTogether (to_string TOGETHER_API_KEY) (raster_request img);
      CallRemoveBackground (blob_of b64decode b64)]).
Proof.
  intros Htr Honline Hkey Hpay Hseg.
  unfold System.image_exchange, serve. rewrite Honline.
  unfold generate_image, try_catch, bind.
  assert (Ht : isTransparent (image_request img) = true)
    by (unfold image_request; rewrite Htr; reflexivity).
  rewrite Ht.
  rewrite (generateImage_success TOGETHER_API_KEY b64decode b64encode
             (togetherApi i) (removeBackground i) _ _ _ true [] b64 Hkey
             Hpay).
  cbv zeta. rewrite removeBackgroundFun_run, Hseg. reflexivity.
Qed.

Lemma concat_imap_all_nil {A B C} (obs : list B -> list C)
    (P : A -> Prop) (l : list A) :
  forall (f : nat -> A -> list B),
    obs [] = [] ->
    (forall x y, obs (x ++ y) = obs x ++ obs y) ->
    Forall P l ->
    (forall i x, P x -> obs (f i x) = []) ->
    obs (concat (imap f l)) = [].
Proof.
  induction l as [|x l IH]; intros f Hnil Happ Hall Hf; [exact Hnil|].
  rewrite imap_cons. cbn [concat]. inversion Hall as [|? ? Hx Hl]; subst.
  rewrite Happ, (Hf 0%nat x Hx). cbn [app].
  apply IH; [exact Hnil|exact Happ|exact Hl|].
  intros i y Hy. apply (Hf (S i) y Hy).
Qed.

(** A run over a layout whose placeholders are all opaque never calls the
    segmentation library. *)
Theorem opaque_run_never_segments (p : Page) (h : string) :
  trim (userInput p) <> "" ->
  layout_outcome (fetchLayout {| requirements := trim (userInput p) |})
  = inr h ->
  Forall (fun img => isTransparent (image_request img) = false)
    (parseImages h) ->
  exists p',
    click p = (Val tt, p')
    /\ segmented_inputs (external_calls (events_since p p')) = [].
Proof.
  intros Hreq Hlayout Hopaque.
  destruct (click_resolves parseImages fetchLayout fetchImage p h Hreq
              Hlayout) as [tc Hrun].
  eexists. split; [exact Hrun|]. rewrite events_since_run.
  rewrite external_calls_run. unfold segmented_inputs.
  rewrite omap_app. fold (segmented_inputs (snd (layout_exchange
    {| requirements := trim (userInput p) |}))).
  destruct (gemini_calls_only _ (layout_exchange_calls GEMINI_API_KEY
              systemPrompt fixedRequirements geminiApi online_layout
              {| requirements := trim (userInput p) |})) as [-> _].
  cbn [app].
  apply (concat_imap_all_nil _
           (fun img => isTransparent (image_request img) = false));
    [reflexivity|intros; apply omap_app|exact Hopaque|].
  intros i img Himg. apply (image_exchange_opaque i _ Himg).
Qed.

(** A transparent placeholder whose image is generated and cut out ends
    [Resolved] with the cut-out as a PNG data URL. *)
Theorem segmentation_success_resolves
    (p : Page) (h : string) (i : nat) (img : Img) (b64 : string)
    (outputBuffer : list byte) :
  trim (userInput p) <> "" ->
  layout_outcome (fetchLayout {| requirements := trim (userInput p) |})
  = inr h ->
  parseImages h !! i = Some img ->
  transparent img = Some "true" ->
  online_image i = true ->
  truthy TOGETHER_API_KEY = true ->
  generated_payload (togetherApi i (raster_request img)) = Some b64 ->
  removeBackground i (blob_of b64decode b64) = Some outputBuffer ->
  exists p' img',
    click p = (Val tt, p')
    /\ images p' !! i = Some img'
    /\ resolutionState img' = Resolved
    /\ src img' = "data:image/png;base64," +:+ b64encode outputBuffer.
Proof.
  intros Hreq Hlayout Hi Htr Honline Hkey Hpay Hseg.
  pose proof (image_exchange_cutout i img b64 outputBuffer Htr Honline Hkey
                Hpay Hseg) as Hex.
  assert (Hout : image_outcome (fetchImage i (image_request img))
                 = inr ("data:image/png;base64," +:+ b64encode outputBuffer))
    by (unfold System.fetchImage; rewrite Hex; reflexivity).
  destruct (click_resolves parseImages fetchLayout fetchImage p h Hreq
              Hlayout) as [tc Hrun].
  destruct (resolve_succeeded fetchImage i img _ Hout) as (Hst & Hsrc & _).
  eexists. exists (Client.resolve fetchImage i img).
  split; [exact Hrun|]. cbn [images].
  split; [rewrite list_lookup_imap, Hi; reflexivity|]. auto.
Qed.

(** Without a Together key every placeholder of a run is marked failed,
    the generator and the segmentation library are never called, and the
    user gets no alert. *)
Theorem missing_key_fails_every_image (p : Page) (h : string) :
  trim (userInput p) <> "" ->
  layout_outcome (fetchLayout {| requirements := trim (userInput p) |})
  = inr h ->
  truthy TOGETHER_API_KEY = false ->
  exists p',
    click p = (Val tt, p')
    /\ images p' = List.map (set_alt FAILED_ALT) (parseImages h)
    /\ sent_dimensions (external_calls (events_since p p')) = []
    /\ segmented_inputs (external_calls (events_since p p')) = []
    /\ List.filter is_alert (events_since p p') = [].
Proof.
  intros Hreq Hlayout Hkey.
  destruct (click_resolves parseImages fetchLayout fetchImage p h Hreq
              Hlayout) as [tc Hrun].
  eexists. split; [exact Hrun|]. rewrite events_since_run. cbn [images].
  split; [|split; [|split]].
  - apply list_eq. intros i.
    rewrite list_lookup_imap, list_lookup_fmap.
    destruct (parseImages h !! i) as [img|]; [|reflexivity]. cbn.
    unfold Client.resolve.
    destruct (image_exchange_without_key i (image_request img) Hkey)
      as [_ [e ->]].
    reflexivity.
  - rewrite external_calls_run. unfold sent_dimensions.
    rewrite omap_app. fold (sent_dimensions (snd (layout_exchange
      {| requirements := trim (userInput p) |}))).
    destruct (gemini_calls_only _ (layout_exchange_calls GEMINI_API_KEY
                systemPrompt fixedRequirements geminiApi online_layout
                {| requirements := trim (userInput p) |})) as [_ ->].
    cbn [app].
    apply (concat_imap_all_nil _ (fun _ => True));
      [reflexivity|intros; apply omap_app|apply Forall_true; trivial|].
    intros i img _.
    destruct (image_exchange_without_key i (image_request img) Hkey)
      as [-> _].
    reflexivity.
  - rewrite external_calls_run. unfold segmented_inputs.
    rewrite omap_app. fold (segmented_inputs (snd (layout_exchange
      {| requirements := trim (userInput p) |}))).
    destruct (gemini_calls_only _ (layout_exchange_calls GEMINI_API_KEY
                systemPrompt fixedRequirements geminiApi online_layout
                {| requirements := trim (userInput p) |})) as [-> _].
    cbn [app].
    apply (concat_imap_all_nil _ (fun _ => True));
      [reflexivity|intros; apply omap_app|apply Forall_true; trivial|].
    intros i img _.
    destruct (image_exchange_without_key i (image_request img) Hkey)
      as [-> _].
    reflexivity.
  - apply run_events_alerts.
Qed.

End World.

(** A placeholder with neither a size attribute nor a laid-out size is
    requested at 300 by 300 and generated at 304 by 304. *)
Theorem sizeless_placeholder_gets_304 (img : Img) :
  img_width img = 0 -> clientWidth img = 0 ->
  img_height img = 0 -> clientHeight img = 0 ->
  width (image_request img) = 300
  /\ height (image_request img) = 300
  /\ req_width (raster_request img) = 304
  /\ req_height (raster_request img) = 304.
Proof.
  intros Hw Hcw Hh Hch.
  unfold raster_request, image_request. cbn [prompt width height].
  rewrite Hw, Hcw, Hh, Hch. repeat split.
Qed.

Lemma sizeless_placeholder_gets_304_witness :
  req_width (raster_request Sample.wave) = 304
  /\ req_height (raster_request Sample.wave) = 304.
Proof.
  apply (sizeless_placeholder_gets_304 Sample.wave); reflexivity.
Defined.

Lemma calls_of_a_run_witness :
  exists p',
    Sample.click Sample.gemini (Sample.page " beach party flyer ")
    = (Val tt, p')
    /\ length (Sample.external_calls Sample.gemini
                 (events_since (Sample.page " beach party flyer ") p'))
       = 5%nat.
Proof.
  destruct (calls_of_a_run
              (Some "gemini-key") (Some "together-key") Sample.decode
              Sample.encode "system prompt" "fixed requirements" Sample.parse
              Sample.gemini Sample.together Sample.segmentation_down true
              (fun _ => true) (Sample.page " beach party flyer ")
              Sample.poster)
    as (p' & Hrun & Hcalls).
  - vm_compute. discriminate.
  - vm_compute. reflexivity.
  - exists p'. split; [exact Hrun|].
    unfold Sample.external_calls. rewrite Hcalls. reflexivity.
Defined.

Lemma opaque_run_never_segments_witness :
  exists p',
    Sample2.click (Some "together-key") Sample2.opaque_parse
      Sample.segmentation_down (Sample.page " beach party flyer ")
    = (Val tt, p')
    /\ segmented_inputs
         (Sample2.external_calls (Some "together-key")
            Sample.segmentation_down
            (events_since (Sample.page " beach party flyer ") p')) = [].
Proof.
  destruct (opaque_run_never_segments
              (Some "gemini-key") (Some "together-key") Sample.decode
              Sample.encode "system prompt" "fixed requirements"
              Sample2.opaque_parse Sample.gemini Sample.together
              Sample.segmentation_down true (fun _ => true)
              (Sample.page " beach party flyer ") Sample.poster)
    as (p' & Hrun & Hseg).
  - vm_compute. discriminate.
  - vm_compute. reflexivity.
  - repeat constructor.
  - exists p'. auto.
Defined.

Lemma segmentation_success_resolves_witness :
  exists p' img',
    Sample2.click (Some "together-key") Sample.parse Sample2.segmentation_up
      (Sample.page " beach party flyer ") = (Val tt, p')
    /\ images p' !! 1%nat = Some img'
    /\ resolutionState img' = Resolved
    /\ src img' = "data:image/png;base64,".
Proof.
  destruct (segmentation_success_resolves
              (Some "gemini-key") (Some "together-key") Sample.decode
              Sample.encode "system prompt" "fixed requirements" Sample.parse
              Sample.gemini Sample.together Sample2.segmentation_up true
              (fun _ => true) (Sample.page " beach party flyer ")
              Sample.poster 1 Sample.palm "iVBORw0KGgo=" Sample2.cutout)
    as (p' & img' & Hrun & Hi & Hst & Hsrc).
  - vm_compute. discriminate.
  - vm_compute. reflexivity.
  - reflexivity.
  - reflexivity.
  - reflexivity.
  - reflexivity.
  - reflexivity.
  - reflexivity.
  - exists p', img'. auto.
Defined.

Lemma missing_key_fails_every_image_witness :
  exists p',
    Sample2.click None Sample.parse Sample.segmentation_down
      (Sample.page " beach party flyer ") = (Val tt, p')
    /\ List.map alt (images p')
       = [FAILED_ALT; FAILED_ALT; FAILED_ALT].
Proof.
  destruct (missing_key_fails_every_image
              (Some "gemini-key") None Sample.decode
              Sample.encode "system prompt" "fixed requirements" Sample.parse
              Sample.gemini Sample.together Sample.segmentation_down true
              (fun _ => true) (Sample.page " beach party flyer ")
              Sample.poster)
    as (p' & Hrun & Himgs & _).
  - vm_compute. discriminate.
  - vm_compute. reflexivity.
  - reflexivity.
  - exists p'. split; [exact Hrun|]. rewrite Himgs. reflexivity.
Defined.

End SystemMore.
